(** * LiveClass admin form: the days-of-week visibility script

    A shallow embedding of [static/admin/js/liveclass_admin.js].  The script
    is a [DOMContentLoaded] listener that defines [toggleDaysOfWeek], applies
    it to the current value of the recurrence select, subscribes it to the
    select's change events, injects a style block and lays the option list
    out as a grid.

    The page is modelled as a record holding exactly the nodes the script's
    selectors can reach; the script itself is written in a state-and-error
    monad over that record, so that a property access through a [null]
    reference is a [TypeError] exactly where JavaScript raises one.

    Modelling choices:
    - the label's content is its serialized markup, a string, which is what
      the script reads, extends and rewrites through [innerHTML]; reading
      [innerHTML] after a write returns the string written;
    - the browser's parser is not modelled: how the text of a label follows
      from its markup is a parameter of the label, of which only one law is
      assumed, that the marker appended to a label's markup adds the
      marker's asterisk to the text (the markup read from a label is a
      serialization, in which every comment, tag and element is closed);
    - a checkbox of the row may be a descendant of its first label; an
      assignment to the label's [innerHTML] then recreates it from the
      markup, with the checked state its [checked] attribute gives it;
    - the document has a head, as every parsed HTML document does;
    - strings are sequences of bytes; the script's patterns are ASCII. *)

From Stdlib Require Import String Ascii List Bool Arith Lia ZArith.
Import ListNotations.
Open Scope string_scope.

(** ** JavaScript strings *)

Module JSString.

(** [s.startsWith(p)] *)
Fixpoint startsWith (s p : string) {struct p} : bool :=
  match p with
  | EmptyString => true
  | String a p' =>
      match s with
      | EmptyString => false
      | String b s' => Ascii.eqb a b && startsWith s' p'
      end
  end.

(** [s.slice(n)] for [0 <= n] *)
Fixpoint slice (n : nat) (s : string) : string :=
  match n, s with
  | O, _ => s
  | S _, EmptyString => EmptyString
  | S n', String _ s' => slice n' s'
  end.

(** [s.includes(p)]: [p] occurs somewhere in [s]. *)
Fixpoint includes (s p : string) : bool :=
  startsWith s p
  || match s with
     | EmptyString => false
     | String _ s' => includes s' p
     end.

(** [s.replace(p, r)] for a string pattern [p] and a replacement [r] free
    of [$]: only the first occurrence of [p] is replaced. *)
Fixpoint replace (s p r : string) : string :=
  if startsWith s p then r ++ slice (String.length p) s
  else match s with
       | EmptyString => EmptyString
       | String c s' => String c (replace s' p r)
       end.

(** Number of positions of [s] at which [p] occurs. *)
Fixpoint occurrences (s p : string) : nat :=
  (if startsWith s p then 1 else 0)
  + match s with
    | EmptyString => 0
    | String _ s' => occurrences s' p
    end.

(** Number of occurrences of the character [c] in [s]. *)
Fixpoint count_char (c : ascii) (s : string) : nat :=
  match s with
  | EmptyString => 0
  | String a s' => (if Ascii.eqb a c then 1 else 0) + count_char c s'
  end.

End JSString.
Import JSString.

(** The double quote character. *)
Definition dquote : string := String "034"%char EmptyString.

(** The markup the script appends to the label and later removes
    (the string literal of lines 16 and 23). *)
Definition marker : string :=
  Eval cbv in " <span style=" ++ dquote ++ "color: red;" ++ dquote ++ ">*</span>".

(** ** JavaScript values and completions *)

Inductive JSValue : Type :=
| JSUndefined
| JSNull
| JSBoolean (b : bool)
| JSNumber (n : Z)
| JSString (s : string).

(** [v === w] *)
Definition strict_equals (v w : JSValue) : bool :=
  match v, w with
  | JSUndefined, JSUndefined => true
  | JSNull, JSNull => true
  | JSBoolean a, JSBoolean b => Bool.eqb a b
  | JSNumber a, JSNumber b => Z.eqb a b
  | JSString a, JSString b => String.eqb a b
  | _, _ => false
  end.

Inductive Error : Type := TypeError.

Inductive Completion (A : Type) : Type :=
| Normal (a : A)
| Throw (e : Error).
Arguments Normal {A} a.
Arguments Throw {A} e.

(** ** The page *)

(** The properties of an element's inline style that the script writes. *)
Record Style : Type := mkStyle {
  display : string;
  listStyle : string;
  padding : string;
  gridTemplateColumns : string;
  gap : string
}.

(** The browser's reading of markup: [text_of html] is the text content of
    a label whose children were parsed from [html].  The parser itself is
    left open; the one law says that appending the marker to the markup
    of a label adds exactly the marker's asterisk to its text. *)
Record Parser : Type := mkParser {
  text_of : string -> string;
  text_of_appended :
    forall html,
      count_char "*" (text_of (html ++ marker))
      = S (count_char "*" (text_of html))
}.

(** The first [label] inside the row.  Its content is held as serialized
    markup, the form in which the script reads and writes it; [parser] is
    the way the browser derives the label's text from that markup. *)
Record Label : Type := mkLabel { innerHTML : string; parser : Parser }.

(** [label.textContent] *)
Definition textContent (l : Label) : string := text_of (parser l) (innerHTML l).

(** A checkbox of the row.  [default_checked] is its [checked] attribute,
    the state a checkbox parsed from markup starts in; [in_label] tells
    whether it is a descendant of the row's first label. *)
Record Checkbox : Type := mkCheckbox {
  checkbox_value : string;
  checked : bool;
  default_checked : bool;
  in_label : bool
}.

(** The checkbox after the label's children have been parsed anew: one
    inside the label is a new element in its default state. *)
Definition reparsed (c : Checkbox) : Checkbox :=
  if in_label c
  then mkCheckbox (checkbox_value c) (default_checked c) (default_checked c) true
  else c.

Record ListItem : Type := mkListItem { classList : list string }.

(** The first [ul] inside the row and its [li] descendants. *)
Record OptionList : Type := mkOptionList {
  list_style : Style;
  items : list ListItem
}.

(** The element matching [.field-days_of_week]. *)
Record Row : Type := mkRow {
  row_style : Style;
  label : option Label;
  checkboxes : list Checkbox;
  option_list : option OptionList
}.

(** The element matching [#id_recurrence_type]; [change_listeners] counts
    the change listeners the script has registered on it. *)
Record Select : Type := mkSelect { value : string; change_listeners : nat }.

Record Document : Type := mkDocument {
  recurrence_type : option Select;
  days_of_week : option Row;
  head_styles : list string;
  window_toggleDaysOfWeek : bool
}.

(** References to nodes of the page; [None] is [null]. *)
Inductive Node : Type :=
| SelectNode
| RowNode
| LabelNode
| ListNode
| CheckboxNode (i : nat)
| ItemNode (i : nat).

Definition Ref : Type := option Node.

Definition truthy (r : Ref) : bool :=
  match r with Some _ => true | None => false end.

(** ** The DOM monad: state passing with exceptions *)

Definition DOM (A : Type) : Type := Document -> Completion (A * Document).

Definition ret {A : Type} (a : A) : DOM A := fun doc => Normal (a, doc).

Definition bind {A B : Type} (c : DOM A) (k : A -> DOM B) : DOM B :=
  fun doc =>
    match c doc with
    | Normal (a, doc') => k a doc'
    | Throw e => Throw e
    end.

Definition throw {A : Type} (e : Error) : DOM A := fun _ => Throw e.

Declare Scope dom_scope.
Delimit Scope dom_scope with dom.
Notation "x <- c ;; k" := (bind c (fun x => k))
  (at level 61, c at next level, right associativity) : dom_scope.
Notation "c ;; k" := (bind c (fun _ => k))
  (at level 61, right associativity) : dom_scope.
Open Scope dom_scope.

(** [if (b) { c }] *)
Definition when (b : bool) (c : DOM unit) : DOM unit :=
  if b then c else ret tt.

(** [b && c], where [c] is evaluated only if [b] holds. *)
Definition and_also (b : bool) (c : DOM bool) : DOM bool :=
  if b then c else ret false.

(** [l.forEach(f)] *)
Fixpoint forEach {A : Type} (l : list A) (f : A -> DOM unit) : DOM unit :=
  match l with
  | [] => ret tt
  | x :: l' => f x ;; forEach l' f
  end.

(** Run [c] [n] times. *)
Fixpoint times (n : nat) (c : DOM unit) : DOM unit :=
  match n with
  | O => ret tt
  | S n' => c ;; times n' c
  end.

(** *** Updates of the page *)

Definition with_select (doc : Document) (s : Select) : Document :=
  mkDocument (Some s) (days_of_week doc) (head_styles doc)
             (window_toggleDaysOfWeek doc).

Definition with_row (doc : Document) (r : Row) : Document :=
  mkDocument (recurrence_type doc) (Some r) (head_styles doc)
             (window_toggleDaysOfWeek doc).

Definition set_display (v : string) (s : Style) : Style :=
  mkStyle v (listStyle s) (padding s) (gridTemplateColumns s) (gap s).
Definition set_listStyle (v : string) (s : Style) : Style :=
  mkStyle (display s) v (padding s) (gridTemplateColumns s) (gap s).
Definition set_padding (v : string) (s : Style) : Style :=
  mkStyle (display s) (listStyle s) v (gridTemplateColumns s) (gap s).
Definition set_gridTemplateColumns (v : string) (s : Style) : Style :=
  mkStyle (display s) (listStyle s) (padding s) v (gap s).
Definition set_gap (v : string) (s : Style) : Style :=
  mkStyle (display s) (listStyle s) (padding s) (gridTemplateColumns s) v.

(** Replace the [i]-th element of [l] by its image under [f]. *)
Fixpoint update_nth {A : Type} (i : nat) (f : A -> A) (l : list A) : list A :=
  match l, i with
  | [], _ => []
  | x :: l', O => f x :: l'
  | x :: l', S i' => x :: update_nth i' f l'
  end.

(** [classList.add(c)]: a token list holds each class once. *)
Definition classList_add (c : string) (li : ListItem) : ListItem :=
  if existsb (String.eqb c) (classList li) then li
  else mkListItem (classList li ++ [c]).

(** *** Selectors *)

Definition sel_recurrence : string := "#id_recurrence_type".
Definition sel_row : string := ".field-days_of_week".
Definition sel_list : string := ".field-days_of_week ul".
Definition sel_label : string := "label".
Definition sel_items : string := "li".
Definition sel_checkboxes : string :=
  Eval cbv in "input[type=" ++ dquote ++ "checkbox" ++ dquote ++ "]".

(** [document.querySelector(sel)] *)
Definition document_querySelector (sel : string) : DOM Ref :=
  fun doc =>
    let found :=
      if String.eqb sel sel_recurrence then
        match recurrence_type doc with Some _ => Some SelectNode | None => None end
      else if String.eqb sel sel_row then
        match days_of_week doc with Some _ => Some RowNode | None => None end
      else if String.eqb sel sel_list then
        match days_of_week doc with
        | Some r =>
            match option_list r with Some _ => Some ListNode | None => None end
        | None => None
        end
      else None in
    Normal (found, doc).

(** [e.querySelector(sel)]; a [null] receiver raises. *)
Definition querySelector (e : Ref) (sel : string) : DOM Ref :=
  fun doc =>
    match e with
    | None => Throw TypeError
    | Some RowNode =>
        match days_of_week doc with
        | Some r =>
            if String.eqb sel sel_label then
              match label r with
              | Some _ => Normal (Some LabelNode, doc)
              | None => Normal (None, doc)
              end
            else Normal (None, doc)
        | None => Throw TypeError
        end
    | Some _ => Normal (None, doc)
    end.

(** [e.querySelectorAll(sel)] *)
Definition querySelectorAll (e : Ref) (sel : string) : DOM (list Ref) :=
  fun doc =>
    match e with
    | None => Throw TypeError
    | Some RowNode =>
        match days_of_week doc with
        | Some r =>
            if String.eqb sel sel_checkboxes then
              Normal (map (fun i => Some (CheckboxNode i))
                          (seq 0 (List.length (checkboxes r))), doc)
            else Normal ([], doc)
        | None => Throw TypeError
        end
    | Some ListNode =>
        match days_of_week doc with
        | Some r =>
            match option_list r with
            | Some ul =>
                if String.eqb sel sel_items then
                  Normal (map (fun i => Some (ItemNode i))
                              (seq 0 (List.length (items ul))), doc)
                else Normal ([], doc)
            | None => Throw TypeError
            end
        | None => Throw TypeError
        end
    | Some _ => Normal ([], doc)
    end.

(** *** Property reads and writes

    Each of them raises on a [null] receiver, as JavaScript does, and also
    on a receiver of a kind the page record does not hold the property for. *)

(** [e.style.p = v], with [f] the update of property [p] *)
Definition style_set (e : Ref) (f : Style -> Style) : DOM unit :=
  fun doc =>
    match e, days_of_week doc with
    | Some RowNode, Some r =>
        Normal (tt, with_row doc (mkRow (f (row_style r)) (label r)
                                        (checkboxes r) (option_list r)))
    | Some ListNode, Some r =>
        match option_list r with
        | Some ul =>
            Normal (tt, with_row doc
                          (mkRow (row_style r) (label r) (checkboxes r)
                                 (Some (mkOptionList (f (list_style ul))
                                                     (items ul)))))
        | None => Throw TypeError
        end
    | _, _ => Throw TypeError
    end.

Definition the_label (e : Ref) (doc : Document) : option Label :=
  match e, days_of_week doc with
  | Some LabelNode, Some r => label r
  | _, _ => None
  end.

(** [e.textContent] *)
Definition get_textContent (e : Ref) : DOM string :=
  fun doc =>
    match the_label e doc with
    | Some l => Normal (textContent l, doc)
    | None => Throw TypeError
    end.

(** [e.innerHTML] *)
Definition get_innerHTML (e : Ref) : DOM string :=
  fun doc =>
    match the_label e doc with
    | Some l => Normal (innerHTML l, doc)
    | None => Throw TypeError
    end.

(** [e.innerHTML = html]: the label's children are replaced by the nodes
    parsed from [html], so the checkboxes inside the label are new ones. *)
Definition set_innerHTML (e : Ref) (html : string) : DOM unit :=
  fun doc =>
    match e, days_of_week doc with
    | Some LabelNode, Some r =>
        match label r with
        | Some l =>
            Normal (tt, with_row doc
                          (mkRow (row_style r) (Some (mkLabel html (parser l)))
                                 (map reparsed (checkboxes r))
                                 (option_list r)))
        | None => Throw TypeError
        end
    | _, _ => Throw TypeError
    end.

(** [e.checked = b] *)
Definition set_checked (e : Ref) (b : bool) : DOM unit :=
  fun doc =>
    match e, days_of_week doc with
    | Some (CheckboxNode i), Some r =>
        match nth_error (checkboxes r) i with
        | Some _ =>
            Normal (tt, with_row doc
                          (mkRow (row_style r) (label r)
                                 (update_nth i
                                    (fun c => mkCheckbox (checkbox_value c) b
                                                         (default_checked c)
                                                         (in_label c))
                                    (checkboxes r))
                                 (option_list r)))
        | None => Throw TypeError
        end
    | _, _ => Throw TypeError
    end.

(** [e.classList.add(c)] *)
Definition classList_add_to (e : Ref) (c : string) : DOM unit :=
  fun doc =>
    match e, days_of_week doc with
    | Some (ItemNode i), Some r =>
        match option_list r with
        | Some ul =>
            match nth_error (items ul) i with
            | Some _ =>
                Normal (tt, with_row doc
                    (mkRow (row_style r) (label r) (checkboxes r)
                       (Some (mkOptionList (list_style ul)
                                (update_nth i (classList_add c) (items ul))))))
            | None => Throw TypeError
            end
        | None => Throw TypeError
        end
    | _, _ => Throw TypeError
    end.

(** [e.value] *)
Definition get_value (e : Ref) : DOM string :=
  fun doc =>
    match e, recurrence_type doc with
    | Some SelectNode, Some s => Normal (value s, doc)
    | _, _ => Throw TypeError
    end.

(** [e.addEventListener('change', listener)] *)
Definition addEventListener_change (e : Ref) : DOM unit :=
  fun doc =>
    match e, recurrence_type doc with
    | Some SelectNode, Some s =>
        Normal (tt, with_select doc (mkSelect (value s) (S (change_listeners s))))
    | _, _ => Throw TypeError
    end.

(** [window.toggleDaysOfWeek = toggleDaysOfWeek] *)
Definition set_window_toggleDaysOfWeek : DOM unit :=
  fun doc =>
    Normal (tt, mkDocument (recurrence_type doc) (days_of_week doc)
                           (head_styles doc) true).

(** [style = document.createElement('style'); style.textContent = css;
    document.head.appendChild(style)] *)
Definition head_appendChild_style (css : string) : DOM unit :=
  fun doc =>
    Normal (tt, mkDocument (recurrence_type doc) (days_of_week doc)
                           (head_styles doc ++ [css])
                           (window_toggleDaysOfWeek doc)).

(** ** The script *)

(** Lines 8-32. *)
Definition toggleDaysOfWeek (recurrenceType : JSValue) : DOM unit :=
  daysOfWeekRow <- document_querySelector sel_row ;;
  when (truthy daysOfWeekRow)
    (if strict_equals recurrenceType (JSString "weekly") then
       style_set daysOfWeekRow (set_display "block") ;;
       label <- querySelector daysOfWeekRow sel_label ;;
       unmarked <- and_also (truthy label)
                     (text <- get_textContent label ;;
                      ret (negb (includes text "*"))) ;;
       when unmarked
         (html <- get_innerHTML label ;;
          set_innerHTML label (html ++ marker))
     else
       style_set daysOfWeekRow (set_display "none") ;;
       label <- querySelector daysOfWeekRow sel_label ;;
       when (truthy label)
         (html <- get_innerHTML label ;;
          set_innerHTML label (replace html marker "")) ;;
       checkboxes <- querySelectorAll daysOfWeekRow sel_checkboxes ;;
       forEach checkboxes (fun checkbox => set_checked checkbox false)).

Definition newline : string := String "010"%char EmptyString.

(** The template literal of lines 51-76. *)
Definition style_textContent : string :=
  String.concat newline
    [ "";
      "        .field-days_of_week {";
      "            border-left: 3px solid var(--primary);";
      "            padding-left: 10px;";
      "            margin-left: 5px;";
      "            background-color: var(--darkened-bg);";
      "            padding: 10px;";
      "            border-radius: 4px;";
      "        }";
      "        ";
      "        .field-days_of_week .checkbox-row {";
      "            display: inline-block;";
      "            margin-right: 15px;";
      "            margin-bottom: 5px;";
      "            min-width: 100px;";
      "        }";
      "        ";
      "        .field-days_of_week label {";
      "            font-weight: 600;";
      "            color: var(--body-fg);";
      "        }";
      "        ";
      "        .field-days_of_week " ++ sel_checkboxes ++ " {";
      "            margin-right: 5px;";
      "        }";
      "    " ].

(** The change listener of lines 44-46; [this] is the select. *)
Definition onChange (this : Ref) : DOM unit :=
  v <- get_value this ;;
  toggleDaysOfWeek (JSString v).

(** Lines 6-93: the [DOMContentLoaded] listener. *)
Definition onDOMContentLoaded : DOM unit :=
  set_window_toggleDaysOfWeek ;;
  recurrenceSelect <- document_querySelector sel_recurrence ;;
  when (truthy recurrenceSelect)
    (v <- get_value recurrenceSelect ;;
     toggleDaysOfWeek (JSString v) ;;
     addEventListener_change recurrenceSelect) ;;
  head_appendChild_style style_textContent ;;
  daysOfWeekField <- document_querySelector sel_list ;;
  when (truthy daysOfWeekField)
    (style_set daysOfWeekField (set_listStyle "none") ;;
     style_set daysOfWeekField (set_padding "0") ;;
     style_set daysOfWeekField (set_display "grid") ;;
     style_set daysOfWeekField
       (set_gridTemplateColumns "repeat(auto-fit, minmax(120px, 1fr))") ;;
     style_set daysOfWeekField (set_gap "10px") ;;
     listItems <- querySelectorAll daysOfWeekField sel_items ;;
     forEach listItems (fun li => classList_add_to li "checkbox-row")).

(** A change event on the select: the control takes the value the user
    picked, then every registered listener runs.  Without the select there
    is no such event. *)
Definition change (newValue : string) : DOM unit :=
  fun doc =>
    match recurrence_type doc with
    | Some s =>
        times (change_listeners s) (onChange (Some SelectNode))
              (with_select doc (mkSelect newValue (change_listeners s)))
    | None => Normal (tt, doc)
    end.

(** The states the page goes through: initialization, then change events. *)
Inductive reachable (page : Document) : Document -> Prop :=
| reach_init doc :
    onDOMContentLoaded page = Normal (tt, doc) -> reachable page doc
| reach_change doc v doc' :
    reachable page doc -> change v doc = Normal (tt, doc') ->
    reachable page doc'.

(** ** What the script computes

    Closed forms of the script's effect on the row, the list and the page;
    the run lemmas below prove that the monadic code computes them. *)

(** The weekly branch on the label (lines 15-17). *)
Definition mark (l : Label) : Label :=
  if includes (textContent l) "*" then l
  else mkLabel (innerHTML l ++ marker) (parser l).

(** Whether the weekly branch assigns to the label's [innerHTML]. *)
Definition appends (lb : option Label) : bool :=
  match lb with
  | Some l => negb (includes (textContent l) "*")
  | None => false
  end.

(** The non-weekly branch on the label (line 23). *)
Definition unmark (l : Label) : Label :=
  mkLabel (replace (innerHTML l) marker "") (parser l).

Definition uncheck (c : Checkbox) : Checkbox :=
  mkCheckbox (checkbox_value c) false (default_checked c) (in_label c).

Definition shown (r : Row) : Row :=
  mkRow (set_display "block" (row_style r)) (option_map mark (label r))
        (if appends (label r) then map reparsed (checkboxes r)
         else checkboxes r)
        (option_list r).

Definition hidden (r : Row) : Row :=
  mkRow (set_display "none" (row_style r)) (option_map unmark (label r))
        (map uncheck (checkboxes r)) (option_list r).

(** [recurrenceType === 'weekly'] *)
Definition is_weekly (v : JSValue) : bool :=
  strict_equals v (JSString "weekly").

Definition toggled (v : JSValue) (r : Row) : Row :=
  if is_weekly v then shown r else hidden r.

Definition laid_out (ul : OptionList) : OptionList :=
  mkOptionList
    (mkStyle "grid" "none" "0" "repeat(auto-fit, minmax(120px, 1fr))" "10px")
    (map (classList_add "checkbox-row") (items ul)).

Definition lay_out (r : Row) : Row :=
  mkRow (row_style r) (label r) (checkboxes r)
        (option_map laid_out (option_list r)).

Definition subscribed (s : Select) : Select :=
  mkSelect (value s) (S (change_listeners s)).

Definition initialized (page : Document) : Document :=
  mkDocument
    (option_map subscribed (recurrence_type page))
    (option_map
       (fun r =>
          lay_out match recurrence_type page with
                  | Some s => toggled (JSString (value s)) r
                  | None => r
                  end)
       (days_of_week page))
    (head_styles page ++ [style_textContent])%list
    true.

(** ** Properties of pages *)

(** No proper suffix of [p] is a prefix of [p]. *)
Definition border_free (p : string) : bool :=
  forallb (fun k => negb (startsWith p (slice k p)))
          (seq 1 (String.length p - 1)).

(** Two readings of "the label has the required-marker": the script's
    marker occurs in the markup, or the text shows an asterisk (the test
    the script itself applies). *)
Definition marker_in_markup (l : Label) : bool := includes (innerHTML l) marker.

Definition star_in_text (l : Label) : bool := includes (textContent l) "*".

(** The container agrees with the select's current value. *)
Definition consistent (has_marker : Label -> bool) (doc : Document) : Prop :=
  exists s r l,
    recurrence_type doc = Some s
    /\ days_of_week doc = Some r
    /\ label r = Some l
    /\ if String.eqb (value s) "weekly"
       then display (row_style r) = "block" /\ has_marker l = true
       else display (row_style r) = "none" /\ has_marker l = false.

(** The label holds no marker, or is a marker-free markup to which the
    weekly branch appended its marker. *)
Definition script_marked (lb : option Label) : Prop :=
  match lb with
  | None => True
  | Some l =>
      exists h, includes h marker = false
                /\ (innerHTML l = h \/ innerHTML l = h ++ marker)
  end.

(** The row as a call with the string [v] leaves it, [h] being the label's
    markup when the script loaded and [p] its parser. *)
Definition row_settled (p : Parser) (h v : string) (r : Row) : Prop :=
  if String.eqb v "weekly"
  then display (row_style r) = "block"
       /\ label r = Some (mkLabel (h ++ marker) p)
  else display (row_style r) = "none"
       /\ label r = Some (mkLabel h p)
       /\ Forall (fun c => checked c = false) (checkboxes r).

(** The label is the original one, with or without the appended marker. *)
Definition tame (p : Parser) (h : string) (r : Row) : Prop :=
  label r = Some (mkLabel h p) \/ label r = Some (mkLabel (h ++ marker) p).

Definition settled (p : Parser) (h : string) (doc : Document) : Prop :=
  exists s r,
    recurrence_type doc = Some s
    /\ 1 <= change_listeners s
    /\ days_of_week doc = Some r
    /\ row_settled p h (value s) r.

(** The checkbox [c'] is [c] after a call of the weekly branch: the same
    checkbox, untouched if it is outside the first label, and otherwise
    either untouched or back in its default state. *)
Definition same_box (c c' : Checkbox) : Prop :=
  checkbox_value c' = checkbox_value c
  /\ default_checked c' = default_checked c
  /\ in_label c' = in_label c
  /\ (in_label c = false -> checked c' = checked c)
  /\ (checked c' = checked c \/ checked c' = default_checked c).

(** ** Sample pages *)

(** The text of markup made of text and of tags, a tag running from a [<]
    to the next [>], which is what the labels of the sample pages are made
    of.  [inTag] tells whether the scan is inside a tag. *)
Fixpoint text_outside_tags (inTag : bool) (html : string) : string :=
  match html with
  | EmptyString => EmptyString
  | String c rest =>
      if inTag then
        if Ascii.eqb c ">" then text_outside_tags false rest
        else text_outside_tags true rest
      else
        if Ascii.eqb c "<" then text_outside_tags true rest
        else String c (text_outside_tags false rest)
  end.

(** The parser of the sample pages.  It reads their labels as a browser
    does; markup with comments, raw-text elements or a [>] inside an
    attribute value is outside of what it stands for. *)
Definition sample_parser : Parser.
Proof.
  refine (mkParser (text_outside_tags false) _).
  assert (H : forall s b,
             count_char "*" (text_outside_tags b (s ++ marker))
             = S (count_char "*" (text_outside_tags b s))).
  { induction s as [|c s IH]; intros b.
    - destruct b; reflexivity.
    - change (String c s ++ marker) with (String c (s ++ marker)).
      unfold text_outside_tags; fold text_outside_tags.
      destruct b.
      + destruct (Ascii.eqb c ">"); apply IH.
      + destruct (Ascii.eqb c "<"); [apply IH|].
        unfold count_char; fold count_char. rewrite IH. lia. }
  intros html. apply H.
Defined.

Definition sample_label (html : string) : Label := mkLabel html sample_parser.

Definition plain_style : Style := mkStyle "" "" "" "" "".

(** Three checkboxes outside the label, none with a [checked] attribute. *)
Definition week_boxes (mon tue : bool) : list Checkbox :=
  [ mkCheckbox "0" mon false false;
    mkCheckbox "1" tue false false;
    mkCheckbox "2" false false false ].

Definition sample_list : OptionList :=
  mkOptionList plain_style
    [ mkListItem []; mkListItem ["checkbox-row"]; mkListItem ["day"] ].

Definition sample_row (html : string) (mon tue : bool) : Row :=
  mkRow plain_style (Some (sample_label html)) (week_boxes mon tue)
        (Some sample_list).

(** A page with the select at [v], a label [html], Monday and Tuesday
    checked as told, and a list of three options. *)
Definition sample_page (v : string) (html : string) (mon tue : bool) : Document :=
  mkDocument (Some (mkSelect v 0)) (Some (sample_row html mon tue)) [] false.

Definition plain_page : Document := sample_page "daily" "Days" true true.

(** A container without label and without list, on a page without select. *)
Definition bare_row : Row :=
  mkRow plain_style None (week_boxes true false) None.

Definition bare_page : Document :=
  mkDocument None (Some bare_row) [] false.

(** A page without the select whose container is visible, marked and has
    two days selected. *)
Definition orphan_page : Document :=
  mkDocument None (Some (sample_row ("Days" ++ marker) true true)) [] false.

(** A page with neither the select nor the container. *)
Definition empty_page : Document := mkDocument None None [] false.

(** A page whose label shows an asterisk of the host's own. *)
Definition starred_page : Document :=
  sample_page "weekly" "Days *" false false.

(** [starred_page] after initialization, and after a change to [daily]. *)
Definition starred_loaded : Document :=
  mkDocument (Some (mkSelect "weekly" 1))
             (Some (lay_out (shown (sample_row "Days *" false false))))
             [style_textContent] true.

Definition starred_daily : Document :=
  mkDocument (Some (mkSelect "daily" 1))
             (Some (hidden (lay_out (shown (sample_row "Days *" false false)))))
             [style_textContent] true.

(** A page whose label already shows two asterisks of the host's own. *)
Definition starred_twice_page : Document :=
  sample_page "weekly" "Mon * Tue *" false false.

(** A page whose label holds the marker twice. *)
Definition marked_twice_page : Document :=
  sample_page "weekly" ("Days" ++ marker ++ marker) true true.




(** * Proofs *)

(** ** Facts about strings *)

Section StringFacts.

Lemma append_empty_r (s : string) : s ++ "" = s.
Proof. induction s as [|c s IH]; simpl; [reflexivity | now rewrite IH]. Qed.

Lemma append_assoc' (a b c : string) : (a ++ b) ++ c = a ++ (b ++ c).
Proof. induction a as [|x a IH]; simpl; [reflexivity | now rewrite IH]. Qed.

Lemma length_append' (a b : string) :
  String.length (a ++ b) = String.length a + String.length b.
Proof. induction a as [|x a IH]; simpl; [reflexivity | now rewrite IH]. Qed.

Lemma startsWith_refl (s : string) : startsWith s s = true.
Proof.
  induction s as [|c s IH]; simpl; [reflexivity|].
  now rewrite Ascii.eqb_refl, IH.
Qed.

Lemma startsWith_split (s p : string) :
  startsWith s p = true -> s = p ++ slice (String.length p) s.
Proof.
  revert s; induction p as [|a p IH]; intros s H; [reflexivity|].
  destruct s as [|b s]; simpl in H; [discriminate|].
  apply andb_true_iff in H as [Hab Hs].
  apply Ascii.eqb_eq in Hab; subst b.
  simpl. f_equal. now apply IH.
Qed.

Lemma startsWith_append (p t : string) : startsWith (p ++ t) p = true.
Proof.
  induction p as [|a p IH]; simpl; [reflexivity|].
  now rewrite Ascii.eqb_refl, IH.
Qed.

Lemma slice_append (p t : string) : slice (String.length p) (p ++ t) = t.
Proof. induction p as [|a p IH]; simpl; [reflexivity | exact IH]. Qed.

(** A pattern found at the head of [t ++ q] either lies inside [t] or runs
    over the seam, its remainder being a prefix of [q]. *)
Lemma startsWith_seam (t q p : string) :
  startsWith (t ++ q) p = true ->
  startsWith t p = true
  \/ exists p2, p = t ++ p2 /\ startsWith q p2 = true.
Proof.
  revert p; induction t as [|b t IH]; intros p H.
  - right. exists p. split; [reflexivity | exact H].
  - destruct p as [|a p]; [left; reflexivity|].
    simpl in H. apply andb_true_iff in H as [Hab Hp].
    apply Ascii.eqb_eq in Hab; subst b.
    destruct (IH p Hp) as [Hin | [p2 [Heq Hq]]].
    + left. simpl. now rewrite Ascii.eqb_refl.
    + right. exists p2. split; [simpl; now rewrite Heq | exact Hq].
Qed.

Lemma includes_cons (c : ascii) (s p : string) :
  includes s p = true -> includes (String c s) p = true.
Proof. intros H. simpl. rewrite H. apply orb_true_r. Qed.

Lemma includes_false_cons (c : ascii) (s p : string) :
  includes (String c s) p = false ->
  startsWith (String c s) p = false /\ includes s p = false.
Proof. simpl. intros H. now apply orb_false_iff in H. Qed.

Lemma includes_occurrences (s p : string) :
  includes s p = false <-> occurrences s p = 0.
Proof.
  induction s as [|c s IH]; simpl.
  - destruct (startsWith "" p); simpl; split; intros H; congruence || lia.
  - destruct (startsWith (String c s) p); simpl.
    + split; intros H; [discriminate | lia].
    + exact IH.
Qed.

Lemma replace_absent (s p r : string) :
  includes s p = false -> replace s p r = s.
Proof.
  induction s as [|c s IH]; simpl; intros H.
  - apply orb_false_iff in H as [H _]. now rewrite H.
  - apply orb_false_iff in H as [H1 H2]. rewrite H1. now rewrite IH.
Qed.

(** [replace] cuts out the first occurrence. *)
Lemma replace_present (s p : string) :
  includes s p = true ->
  exists a b, s = a ++ p ++ b /\ replace s p "" = a ++ b.
Proof.
  induction s as [|c s IH]; simpl; intros H.
  - rewrite orb_false_r in H. rewrite H.
    exists "", "". destruct p; [split; reflexivity | discriminate].
  - destruct (startsWith (String c s) p) eqn:Hp.
    + exists "", (slice (String.length p) (String c s)).
      split; [now apply startsWith_split | reflexivity].
    + simpl in H. destruct (IH H) as [a [b [Hs Hr]]].
      exists (String c a), b. simpl. now rewrite Hr, <- Hs.
Qed.

Lemma count_char_append (c : ascii) (a b : string) :
  count_char c (a ++ b) = count_char c a + count_char c b.
Proof. induction a as [|x a IH]; simpl; [reflexivity | rewrite IH; lia]. Qed.

End StringFacts.

(** ** Facts about the marker *)

Section MarkerFacts.

Lemma marker_border_free : border_free marker = true.
Proof. vm_compute. reflexivity. Qed.

Lemma marker_length : String.length marker = 35.
Proof. reflexivity. Qed.

(** An occurrence of the marker cannot straddle the end of [t] in
    [t ++ marker]. *)
Lemma marker_no_overlap (t : string) :
  t <> "" -> startsWith (t ++ marker) marker = startsWith t marker.
Proof.
  intros Ht.
  destruct (startsWith t marker) eqn:Hin.
  - apply startsWith_split in Hin. rewrite Hin, append_assoc'.
    apply startsWith_append.
  - destruct (startsWith (t ++ marker) marker) eqn:Hout; [exfalso | reflexivity].
    apply startsWith_seam in Hout as [H | [p2 [Heq Hp2]]]; [congruence|].
    assert (Hlen : String.length t + String.length p2 = 35)
      by (rewrite <- length_append', <- Heq; apply marker_length).
    assert (Hs : slice (String.length t) marker = p2)
      by (rewrite Heq at 1; apply slice_append).
    destruct p2 as [|c p2].
    + rewrite append_empty_r in Heq. subst t.
      rewrite startsWith_refl in Hin. discriminate.
    + assert (Hk : In (String.length t) (seq 1 (String.length marker - 1))).
      { apply in_seq. rewrite marker_length. simpl in Hlen.
        destruct t; [congruence | simpl in *; lia]. }
      pose proof marker_border_free as Hb. unfold border_free in Hb.
      rewrite forallb_forall in Hb. specialize (Hb _ Hk).
      rewrite Hs, Hp2 in Hb. discriminate.
Qed.

Lemma replace_appended_marker (s : string) :
  includes s marker = false -> replace (s ++ marker) marker "" = s.
Proof.
  induction s as [|c s IH]; intros H; [reflexivity|].
  apply includes_false_cons in H as [H1 H2].
  change (String c s ++ marker) with (String c (s ++ marker)).
  unfold replace; fold replace.
  change (String c (s ++ marker)) with (String c s ++ marker).
  rewrite marker_no_overlap by discriminate. rewrite H1.
  now rewrite IH.
Qed.

Lemma occurrences_appended_marker (s : string) :
  occurrences (s ++ marker) marker = S (occurrences s marker).
Proof.
  induction s as [|c s IH]; [reflexivity|].
  change (String c s ++ marker) with (String c (s ++ marker)).
  unfold occurrences; fold occurrences.
  change (String c (s ++ marker)) with (String c s ++ marker).
  rewrite marker_no_overlap by discriminate. rewrite IH. lia.
Qed.

Lemma count_star_marker : count_char "*" marker = 1.
Proof. reflexivity. Qed.

Lemma includes_char (c : ascii) (s : string) :
  includes s (String c "") = false <-> count_char c s = 0.
Proof.
  induction s as [|a s IH]; [simpl; tauto|].
  unfold includes; fold includes. unfold count_char; fold count_char.
  unfold startsWith. rewrite andb_true_r, Ascii.eqb_sym.
  destruct (Ascii.eqb a c); simpl.
  - split; intros H; [discriminate | lia].
  - exact IH.
Qed.

End MarkerFacts.

(** ** Runs of the script's parts *)

Section RunLemmas.

Local Open Scope list_scope.

Lemma update_nth_middle {A : Type} (f : A -> A) (pre : list A) (x : A)
      (rest : list A) :
  update_nth (List.length pre) f (pre ++ x :: rest) = pre ++ f x :: rest.
Proof. induction pre as [|y pre IH]; simpl; [reflexivity | now rewrite IH]. Qed.

Lemma nth_error_middle {A : Type} (pre : list A) (x : A) (rest : list A) :
  nth_error (pre ++ x :: rest) (List.length pre) = Some x.
Proof. induction pre as [|y pre IH]; simpl; [reflexivity | exact IH]. Qed.

Lemma seq_refs_cons {A : Type} (f : nat -> A) (k n : nat) :
  map f (seq k (S n)) = f k :: map f (seq (S k) n).
Proof. reflexivity. Qed.

Lemma length_snoc {A : Type} (pre : list A) (x : A) :
  List.length (pre ++ [x]) = S (List.length pre).
Proof. rewrite length_app. simpl. lia. Qed.

(** The loop of lines 27-29, started at the box after [pre]. *)
Lemma forEach_set_checked sel st lb ol hs w (rest pre : list Checkbox) :
  forEach (map (fun i => Some (CheckboxNode i))
               (seq (List.length pre) (List.length rest)))
          (fun checkbox => set_checked checkbox false)
          (mkDocument sel (Some (mkRow st lb (pre ++ rest) ol)) hs w)
  = Normal (tt, mkDocument sel
                  (Some (mkRow st lb (pre ++ map uncheck rest) ol)) hs w).
Proof.
  revert pre; induction rest as [|c rest IH]; intros pre.
  - reflexivity.
  - cbn [List.length]. rewrite seq_refs_cons. cbn [forEach].
    unfold bind at 1. unfold set_checked at 1.
    cbn [days_of_week checkboxes].
    rewrite nth_error_middle, update_nth_middle.
    cbn [with_row recurrence_type head_styles window_toggleDaysOfWeek
         row_style label option_list].
    specialize (IH (pre ++ [uncheck c])).
    rewrite length_snoc, <- !app_assoc in IH.
    exact IH.
Qed.

(** The loop of lines 89-91. *)
Lemma forEach_classList_add sel st lb cbs ls hs w (rest pre : list ListItem) :
  forEach (map (fun i => Some (ItemNode i))
               (seq (List.length pre) (List.length rest)))
          (fun li => classList_add_to li "checkbox-row")
          (mkDocument sel
             (Some (mkRow st lb cbs (Some (mkOptionList ls (pre ++ rest)))))
             hs w)
  = Normal (tt, mkDocument sel
                  (Some (mkRow st lb cbs
                     (Some (mkOptionList ls
                        (pre ++ map (classList_add "checkbox-row") rest)))))
                  hs w).
Proof.
  revert pre; induction rest as [|c rest IH]; intros pre.
  - reflexivity.
  - cbn [List.length]. rewrite seq_refs_cons. cbn [forEach].
    unfold bind at 1. unfold classList_add_to at 1.
    cbn [days_of_week option_list items].
    rewrite nth_error_middle, update_nth_middle.
    cbn [with_row recurrence_type head_styles window_toggleDaysOfWeek
         row_style label checkboxes list_style].
    specialize (IH (pre ++ [classList_add "checkbox-row" c])).
    rewrite length_snoc, <- !app_assoc in IH.
    exact IH.
Qed.

Lemma uncheck_reparsed (cbs : list Checkbox) :
  map uncheck (map reparsed cbs) = map uncheck cbs.
Proof.
  rewrite map_map. apply map_ext. intros [v c d n].
  unfold reparsed, uncheck; cbn. destruct n; reflexivity.
Qed.

Lemma toggle_without_row (v : JSValue) (doc : Document) :
  days_of_week doc = None -> toggleDaysOfWeek v doc = Normal (tt, doc).
Proof.
  intros H. unfold toggleDaysOfWeek, bind, document_querySelector.
  cbn. rewrite H. reflexivity.
Qed.

Lemma toggle_weekly (v : JSValue) (doc : Document) (r : Row) :
  is_weekly v = true ->
  days_of_week doc = Some r ->
  toggleDaysOfWeek v doc = Normal (tt, with_row doc (shown r)).
Proof.
  intros Hv H. destruct doc as [sel row hs w]. simpl in H. subst row.
  destruct r as [st lb cbs ol].
  unfold toggleDaysOfWeek, bind, document_querySelector. cbn.
  unfold is_weekly in Hv. rewrite Hv.
  destruct lb as [[html p]|]; cbn; [|reflexivity].
  unfold shown, mark, appends, textContent; cbn.
  destruct (includes (text_of p html) "*"); reflexivity.
Qed.

Lemma toggle_other (v : JSValue) (doc : Document) (r : Row) :
  is_weekly v = false ->
  days_of_week doc = Some r ->
  toggleDaysOfWeek v doc = Normal (tt, with_row doc (hidden r)).
Proof.
  intros Hv H. destruct doc as [sel row hs w]. simpl in H. subst row.
  destruct r as [st lb cbs ol].
  unfold toggleDaysOfWeek, bind, document_querySelector. cbn.
  unfold is_weekly in Hv. rewrite Hv.
  destruct lb as [[html p]|]; cbn.
  - etransitivity;
      [apply (forEach_set_checked sel _ _ ol hs w (map reparsed cbs) [])|].
    unfold hidden; cbn. now rewrite uncheck_reparsed.
  - apply (forEach_set_checked sel _ _ ol hs w cbs []).
Qed.

Lemma is_weekly_iff (v : JSValue) :
  is_weekly v = true <-> v = JSString "weekly".
Proof.
  unfold is_weekly. destruct v; simpl; split; intros H;
    try discriminate; try reflexivity.
  - apply String.eqb_eq in H. now subst.
  - injection H as ->. reflexivity.
Qed.

End RunLemmas.

Section InitLemmas.

Lemma bind_normal {A B : Type} (c : DOM A) (k : A -> DOM B)
      (doc doc' : Document) (a : A) :
  c doc = Normal (a, doc') -> bind c k doc = k a doc'.
Proof. intros H. unfold bind. now rewrite H. Qed.

Lemma toggle_run (v : JSValue) (doc : Document) :
  toggleDaysOfWeek v doc
  = Normal (tt, match days_of_week doc with
                | Some r => with_row doc (toggled v r)
                | None => doc
                end).
Proof.
  destruct (days_of_week doc) as [r|] eqn:Hr.
  - unfold toggled. destruct (is_weekly v) eqn:Hv.
    + now apply toggle_weekly.
    + now apply toggle_other.
  - now apply toggle_without_row.
Qed.

(** Lines 80-92 on a page that has the list. *)
Lemma layout_run sel st lb cbs ul hs w :
  (daysOfWeekField <- document_querySelector sel_list ;;
   when (truthy daysOfWeekField)
     (style_set daysOfWeekField (set_listStyle "none") ;;
      style_set daysOfWeekField (set_padding "0") ;;
      style_set daysOfWeekField (set_display "grid") ;;
      style_set daysOfWeekField
        (set_gridTemplateColumns "repeat(auto-fit, minmax(120px, 1fr))") ;;
      style_set daysOfWeekField (set_gap "10px") ;;
      listItems <- querySelectorAll daysOfWeekField sel_items ;;
      forEach listItems (fun li => classList_add_to li "checkbox-row")))
    (mkDocument sel (Some (mkRow st lb cbs (Some ul))) hs w)
  = Normal (tt, mkDocument sel
                  (Some (mkRow st lb cbs (Some (laid_out ul)))) hs w).
Proof.
  destruct ul as [ls its]. unfold bind, document_querySelector. cbn.
  apply (forEach_classList_add sel st lb cbs _ hs w its []).
Qed.

Lemma query_recurrence (doc : Document) :
  document_querySelector sel_recurrence doc
  = Normal (match recurrence_type doc with
            | Some _ => Some SelectNode
            | None => None
            end, doc).
Proof. reflexivity. Qed.

Lemma layout_skip sel (row : option Row) hs w :
  match row with
  | Some r => option_list r = None
  | None => True
  end ->
  (daysOfWeekField <- document_querySelector sel_list ;;
   when (truthy daysOfWeekField)
     (style_set daysOfWeekField (set_listStyle "none") ;;
      style_set daysOfWeekField (set_padding "0") ;;
      style_set daysOfWeekField (set_display "grid") ;;
      style_set daysOfWeekField
        (set_gridTemplateColumns "repeat(auto-fit, minmax(120px, 1fr))") ;;
      style_set daysOfWeekField (set_gap "10px") ;;
      listItems <- querySelectorAll daysOfWeekField sel_items ;;
      forEach listItems (fun li => classList_add_to li "checkbox-row")))
    (mkDocument sel row hs w)
  = Normal (tt, mkDocument sel row hs w).
Proof.
  intros H. unfold bind, document_querySelector. cbn.
  destruct row as [r|]; [rewrite H|]; reflexivity.
Qed.

Ltac project :=
  cbn [recurrence_type days_of_week head_styles window_toggleDaysOfWeek
       value change_listeners with_row with_select truthy when].

Ltac step :=
  match goal with
  | |- bind ?c ?k ?d = _ => rewrite (bind_normal c k d _ _ eq_refl)
  end;
  project.

(** Lines 41-46 on a page that has the select. *)
Lemma subscribe_run v n (row : option Row) hs w :
  (v0 <- get_value (Some SelectNode) ;;
   toggleDaysOfWeek (JSString v0) ;;
   addEventListener_change (Some SelectNode))
    (mkDocument (Some (mkSelect v n)) row hs w)
  = Normal (tt, mkDocument (Some (mkSelect v (S n)))
                           (option_map (toggled (JSString v)) row) hs w).
Proof.
  step. rewrite (bind_normal _ _ _ _ _ (toggle_run _ _)). project.
  destruct row; reflexivity.
Qed.

Lemma init_run (page : Document) :
  onDOMContentLoaded page = Normal (tt, initialized page).
Proof.
  destruct page as [sel row hs w].
  unfold onDOMContentLoaded, initialized.
  step. rewrite (bind_normal _ _ _ _ _ (query_recurrence _)). project.
  destruct sel as [[v n]|]; project.
  - rewrite (bind_normal _ _ _ _ _ (subscribe_run _ _ _ _ _)).
    step.
    destruct row as [r|]; cbn [option_map].
    + destruct (toggled (JSString v) r) as [st lb cbs [ul|]] eqn:E;
        cbn [option_map lay_out row_style label checkboxes option_list].
      * apply layout_run.
      * now apply layout_skip.
    + now apply layout_skip.
  - step. step.
    destruct row as [[st lb cbs [ul|]]|];
      cbn [option_map lay_out row_style label checkboxes option_list].
    + apply layout_run.
    + now apply layout_skip.
    + now apply layout_skip.
Qed.

End InitLemmas.

(** ** Labels *)

Section LabelFacts.

Lemma text_of_marked (h : string) (p : Parser) :
  includes (textContent (mkLabel (h ++ marker) p)) "*" = true.
Proof.
  unfold textContent; cbn [innerHTML parser].
  destruct (includes (text_of p (h ++ marker)) "*") eqn:E; [reflexivity|].
  apply includes_char in E. rewrite text_of_appended in E. discriminate.
Qed.

Lemma mark_marked (l : Label) :
  includes (textContent l) "*" = true -> mark l = l.
Proof. intros H. unfold mark. now rewrite H. Qed.

Lemma mark_clean (l : Label) :
  includes (textContent l) "*" = false ->
  mark l = mkLabel (innerHTML l ++ marker) (parser l).
Proof. intros H. unfold mark. now rewrite H. Qed.

Lemma mark_shows_star (l : Label) :
  includes (textContent (mark l)) "*" = true.
Proof.
  destruct (includes (textContent l) "*") eqn:E.
  - now rewrite (mark_marked l E).
  - rewrite (mark_clean l E). apply text_of_marked.
Qed.

Lemma mark_idempotent (l : Label) : mark (mark l) = mark l.
Proof. apply mark_marked, mark_shows_star. Qed.

Lemma appends_marked (lb : option Label) :
  appends (option_map mark lb) = false.
Proof.
  destruct lb as [l|]; cbn; [|reflexivity].
  now rewrite mark_shows_star.
Qed.

Lemma shown_idempotent (r : Row) : shown (shown r) = shown r.
Proof.
  destruct r as [st lb cbs ol]. unfold shown; cbn.
  rewrite appends_marked.
  destruct lb as [l|]; cbn; [rewrite mark_idempotent|]; reflexivity.
Qed.

Lemma unmark_clean (l : Label) :
  includes (innerHTML l) marker = false -> unmark l = l.
Proof.
  intros H. destruct l as [h p]. unfold unmark; cbn in *.
  now rewrite replace_absent.
Qed.

Lemma unmark_marked (h : string) (p : Parser) :
  includes h marker = false ->
  unmark (mkLabel (h ++ marker) p) = mkLabel h p.
Proof.
  intros H. unfold unmark; cbn. now rewrite replace_appended_marker.
Qed.

Lemma unchecked_all (cbs : list Checkbox) :
  Forall (fun c => checked c = false) (map uncheck cbs).
Proof. induction cbs; simpl; constructor; auto. Qed.

Lemma uncheck_idempotent (cbs : list Checkbox) :
  map uncheck (map uncheck cbs) = map uncheck cbs.
Proof. rewrite map_map. apply map_ext. reflexivity. Qed.

Lemma classList_add_In (c : string) (li : ListItem) :
  In c (classList (classList_add c li)).
Proof.
  unfold classList_add.
  destruct (existsb (String.eqb c) (classList li)) eqn:E.
  - apply existsb_exists in E as [x [Hx Heq]].
    apply String.eqb_eq in Heq. now subst.
  - cbn. apply in_or_app. right. now left.
Qed.

Lemma not_weekly (v : JSValue) :
  v <> JSString "weekly" -> is_weekly v = false.
Proof.
  intros H. destruct (is_weekly v) eqn:E; [|reflexivity].
  apply is_weekly_iff in E. contradiction.
Qed.

End LabelFacts.

(** ** The claims *)

(** C1.  With the container on the page, [toggleDaysOfWeek v] leaves it
    visible (display [block]) if and only if [v] is the string [weekly];
    every other value, recognized or not, string or not, hides it (display
    [none]) and has one and the same effect on the row. *)
Theorem visible_iff_weekly (v : JSValue) (doc : Document) (r : Row) :
  days_of_week doc = Some r ->
  exists doc' r',
    toggleDaysOfWeek v doc = Normal (tt, doc')
    /\ days_of_week doc' = Some r'
    /\ (display (row_style r') = "block" <-> v = JSString "weekly")
    /\ (v <> JSString "weekly" ->
        display (row_style r') = "none" /\ r' = hidden r).
Proof.
  intros Hr. rewrite toggle_run, Hr. unfold toggled.
  destruct (is_weekly v) eqn:Hv.
  - exists (with_row doc (shown r)), (shown r).
    apply is_weekly_iff in Hv.
    repeat split; auto; contradiction.
  - exists (with_row doc (hidden r)), (hidden r).
    repeat split; auto; cbn.
    + discriminate.
    + intros ->. discriminate.
Qed.

Lemma visible_iff_weekly_witness :
  exists doc' r',
    toggleDaysOfWeek (JSString "weekly") (sample_page "daily" "Days" true true)
    = Normal (tt, doc')
    /\ days_of_week doc' = Some r'
    /\ (display (row_style r') = "block"
        <-> JSString "weekly" = JSString "weekly")
    /\ (JSString "weekly" <> JSString "weekly" ->
        display (row_style r') = "none"
        /\ r' = hidden (sample_row "Days" true true)).
Proof.
  apply (visible_iff_weekly (JSString "weekly")
           (sample_page "daily" "Days" true true)
           (sample_row "Days" true true)).
  reflexivity.
Defined.

(** C7.  [toggleDaysOfWeek] never throws, whatever the value and the page:
    without the container it leaves the page as it is; with a container
    that has no label it skips the marker step and the rest of the branch
    still applies: for [weekly] the display becomes [block] and the
    checkboxes are kept, for any other value the display becomes [none] and
    every checkbox, the same ones as before, is unchecked. *)
Theorem toggle_never_throws (v : JSValue) (doc : Document) :
  exists doc',
    toggleDaysOfWeek v doc = Normal (tt, doc')
    /\ (days_of_week doc = None -> doc' = doc)
    /\ (forall r, days_of_week doc = Some r -> label r = None ->
        exists r',
          days_of_week doc' = Some r'
          /\ label r' = None
          /\ (v = JSString "weekly" ->
              display (row_style r') = "block"
              /\ checkboxes r' = checkboxes r)
          /\ (v <> JSString "weekly" ->
              display (row_style r') = "none"
              /\ map checkbox_value (checkboxes r')
                 = map checkbox_value (checkboxes r)
              /\ Forall (fun c => checked c = false) (checkboxes r'))).
Proof.
  rewrite toggle_run. eexists. split; [reflexivity|]. split.
  - intros H. now rewrite H.
  - intros r Hr Hl. rewrite Hr. exists (toggled v r).
    split; [reflexivity|]. unfold toggled.
    destruct (is_weekly v) eqn:Hv; cbn; rewrite Hl; cbn.
    + split; [reflexivity|]. split; [intros _; split; reflexivity|].
      intros Hne. apply not_weekly in Hne. congruence.
    + split; [reflexivity|]. split.
      * intros ->. discriminate.
      * intros _. split; [reflexivity|]. split; [|apply unchecked_all].
        rewrite map_map. apply map_ext. reflexivity.
Qed.

Lemma toggle_never_throws_witness :
  toggleDaysOfWeek JSUndefined (mkDocument None None [] false)
  = Normal (tt, mkDocument None None [] false)
  /\ exists doc' r',
       toggleDaysOfWeek (JSString "monthly") bare_page = Normal (tt, doc')
       /\ days_of_week doc' = Some r'
       /\ label r' = None
       /\ display (row_style r') = "none"
       /\ map checkbox_value (checkboxes r') = ["0"; "1"; "2"]
       /\ Forall (fun c => checked c = false) (checkboxes r').
Proof.
  split.
  - destruct (toggle_never_throws JSUndefined (mkDocument None None [] false))
      as [doc' [Hrun [Hnone _]]].
    rewrite Hrun, (Hnone eq_refl). reflexivity.
  - destruct (toggle_never_throws (JSString "monthly") bare_page)
      as [doc' [Hrun [_ Hrow]]].
    destruct (Hrow bare_row eq_refl eq_refl) as [r' [Hr' [Hl [_ Hother]]]].
    destruct Hother as [Hd [Hv Hu]]; [discriminate|].
    exists doc', r'. repeat split; assumption.
Defined.

Lemma reparsed_same_box (cbs : list Checkbox) :
  Forall2 same_box cbs (map reparsed cbs).
Proof.
  induction cbs as [|[v c d n] cbs IH]; cbn; constructor; [|exact IH].
  unfold same_box, reparsed; cbn. destruct n; cbn; repeat split; auto.
  discriminate.
Qed.

Lemma same_box_refl (cbs : list Checkbox) : Forall2 same_box cbs cbs.
Proof.
  induction cbs as [|c cbs IH]; constructor; [|exact IH].
  unfold same_box. repeat split; auto.
Qed.





(** *** The marker test and the marker removal *)

Lemma replace_marker_count (html : string) :
  count_char "*" (replace html marker "")
  + (if includes html marker then 1 else 0)
  = count_char "*" html.
Proof.
  destruct (includes html marker) eqn:E.
  - destruct (replace_present html marker E) as [a [b [Hs Hr]]].
    rewrite Hr. rewrite Hs at 1.
    rewrite !count_char_append, count_star_marker. lia.
  - rewrite replace_absent by exact E. lia.
Qed.

(** C10.  The presence check of the weekly branch looks for any asterisk in
    the label's text: a label whose text already shows one is left as it is.
    The non-weekly branch removes the exact marker string and nothing else:
    the new markup is the old one with the first occurrence of the marker
    cut out, so the number of asterisks drops by one if the marker occurred
    and not at all otherwise, and a label without the marker is unchanged. *)
Theorem marker_check_and_removal (doc : Document) (r : Row) (l : Label) :
  days_of_week doc = Some r ->
  label r = Some l ->
  (includes (textContent l) "*" = true ->
   exists doc' r',
     toggleDaysOfWeek (JSString "weekly") doc = Normal (tt, doc')
     /\ days_of_week doc' = Some r'
     /\ label r' = Some l)
  /\ (forall v, v <> JSString "weekly" ->
      exists doc' r' l',
        toggleDaysOfWeek v doc = Normal (tt, doc')
        /\ days_of_week doc' = Some r'
        /\ label r' = Some l'
        /\ innerHTML l' = replace (innerHTML l) marker ""
        /\ count_char "*" (innerHTML l')
           + (if includes (innerHTML l) marker then 1 else 0)
           = count_char "*" (innerHTML l)
        /\ (includes (innerHTML l) marker = false -> l' = l)).
Proof.
  intros Hr Hl. split.
  - intros Hstar.
    rewrite (toggle_weekly (JSString "weekly") doc r eq_refl Hr).
    exists (with_row doc (shown r)), (shown r).
    repeat split. cbn. rewrite Hl. cbn. now rewrite mark_marked.
  - intros v Hv.
    rewrite (toggle_other v doc r (not_weekly v Hv) Hr).
    exists (with_row doc (hidden r)), (hidden r), (unmark l).
    repeat split.
    + cbn. now rewrite Hl.
    + apply replace_marker_count.
    + apply unmark_clean.
Qed.

Lemma marker_check_and_removal_witness :
  (exists doc' r',
     toggleDaysOfWeek (JSString "weekly")
                      (sample_page "weekly" "Days *" false false)
     = Normal (tt, doc')
     /\ days_of_week doc' = Some r'
     /\ label r' = Some (sample_label "Days *"))
  /\ (exists doc' r' l',
        toggleDaysOfWeek (JSString "daily")
                         (sample_page "weekly" "Days *" false false)
        = Normal (tt, doc')
        /\ days_of_week doc' = Some r'
        /\ label r' = Some l'
        /\ l' = sample_label "Days *").
Proof.
  destruct (marker_check_and_removal
              (sample_page "weekly" "Days *" false false)
              (sample_row "Days *" false false)
              (sample_label "Days *") eq_refl eq_refl) as [Hweekly Hother].
  split.
  - apply Hweekly. reflexivity.
  - destruct (Hother (JSString "daily")) as [doc' [r' [l' H]]];
      [discriminate|].
    exists doc', r', l'. intuition.
Defined.

(** C8.  If the container holds an option list, then after initialization
    the list has as many items as before, each of them carries the class
    [checkbox-row], the list's display is [grid], its list style is [none]
    and its padding is [0]; this holds whether or not the select exists and
    whatever its value. *)
Theorem list_laid_out (page : Document) (r : Row) (ul : OptionList) :
  days_of_week page = Some r ->
  option_list r = Some ul ->
  exists doc r' ul',
    onDOMContentLoaded page = Normal (tt, doc)
    /\ days_of_week doc = Some r'
    /\ option_list r' = Some ul'
    /\ List.length (items ul') = List.length (items ul)
    /\ Forall (fun li => In "checkbox-row" (classList li)) (items ul')
    /\ display (list_style ul') = "grid"
    /\ listStyle (list_style ul') = "none"
    /\ padding (list_style ul') = "0".
Proof.
  intros Hr Hul. rewrite init_run.
  assert (Hkeep : forall v, option_list (toggled v r) = Some ul).
  { intros v. unfold toggled. destruct (is_weekly v); exact Hul. }
  eexists. eexists. exists (laid_out ul). split; [reflexivity|].
  split; [unfold initialized; cbn; rewrite Hr; reflexivity|].
  split.
  - destruct (recurrence_type page); cbn; [rewrite Hkeep | rewrite Hul];
      reflexivity.
  - cbn. rewrite length_map. repeat split.
    apply Forall_forall. intros li Hin.
    apply in_map_iff in Hin as [li0 [<- _]]. apply classList_add_In.
Qed.

Lemma list_laid_out_witness :
  exists doc r' ul',
    onDOMContentLoaded (sample_page "monthly" "Days" true false)
    = Normal (tt, doc)
    /\ days_of_week doc = Some r'
    /\ option_list r' = Some ul'
    /\ List.length (items ul') = 3
    /\ Forall (fun li => In "checkbox-row" (classList li)) (items ul')
    /\ display (list_style ul') = "grid"
    /\ listStyle (list_style ul') = "none"
    /\ padding (list_style ul') = "0".
Proof.
  apply (list_laid_out (sample_page "monthly" "Days" true false)
           (sample_row "Days" true false) sample_list); reflexivity.
Defined.

(** *** Initialization without the select or without the container *)

(** C3, as stated, fails: on [orphan_page] initialization completes, and the
    container is not put into the non-weekly state: its display is not
    [none], its label still holds the marker and its boxes are still
    checked. *)
Lemma init_without_select_keeps_state :
  exists doc r',
    onDOMContentLoaded orphan_page = Normal (tt, doc)
    /\ days_of_week doc = Some r'
    /\ display (row_style r') <> "none"
    /\ (exists l, label r' = Some l /\ includes (innerHTML l) marker = true)
    /\ map checked (checkboxes r') = [true; true; false].
Proof.
  rewrite init_run. eexists. eexists.
  split; [reflexivity|]. split; [reflexivity|]. cbn.
  split; [discriminate|]. split; [|reflexivity].
  eexists. split; reflexivity.
Qed.

(** C3, amended.  Without the select, initialization completes without
    throwing and never calls [toggleDaysOfWeek]: the container, if present,
    keeps its display, its label and its checkboxes as they were, and no
    select appears.  The rest of initialization still runs: the global
    function is registered, the style block is appended to the head, and
    the option list, if any, is laid out. *)
Theorem init_without_select (page : Document) :
  recurrence_type page = None ->
  exists doc,
    onDOMContentLoaded page = Normal (tt, doc)
    /\ recurrence_type doc = None
    /\ head_styles doc = (head_styles page ++ [style_textContent])%list
    /\ window_toggleDaysOfWeek doc = true
    /\ (days_of_week page = None -> days_of_week doc = None)
    /\ (forall r, days_of_week page = Some r ->
        exists r',
          days_of_week doc = Some r'
          /\ row_style r' = row_style r
          /\ label r' = label r
          /\ checkboxes r' = checkboxes r
          /\ option_list r' = option_map laid_out (option_list r)).
Proof.
  intros Hs. rewrite init_run. eexists. split; [reflexivity|].
  unfold initialized; cbn. rewrite Hs. cbn. split; [reflexivity|].
  split; [reflexivity|]. split; [reflexivity|]. split.
  - intros H. now rewrite H.
  - intros r H. rewrite H. cbn. eexists. repeat split.
Qed.

Lemma init_without_select_witness :
  exists doc,
    onDOMContentLoaded orphan_page = Normal (tt, doc)
    /\ recurrence_type doc = None
    /\ head_styles doc = [style_textContent]
    /\ window_toggleDaysOfWeek doc = true
    /\ (days_of_week orphan_page = None -> days_of_week doc = None)
    /\ (forall r, days_of_week orphan_page = Some r ->
        exists r',
          days_of_week doc = Some r'
          /\ row_style r' = row_style r
          /\ label r' = label r
          /\ checkboxes r' = checkboxes r
          /\ option_list r' = option_map laid_out (option_list r)).
Proof. apply (init_without_select orphan_page). reflexivity. Defined.

(** C4, as stated, fails: on a page with neither the container nor the
    select, initialization still appends the style block to the head. *)
Lemma init_without_row_injects_style :
  exists doc,
    onDOMContentLoaded empty_page = Normal (tt, doc)
    /\ head_styles empty_page = []
    /\ head_styles doc = [style_textContent]
    /\ doc <> mkDocument None None [] true.
Proof.
  rewrite init_run. eexists. split; [reflexivity|].
  repeat split. discriminate.
Qed.

(** C4, amended.  Without the container, initialization completes without
    throwing; the call of [toggleDaysOfWeek] changes nothing and the list
    layout is skipped, so no container appears; the style block is
    nevertheless appended to the head, once, the global function is
    registered and, if the select exists, it keeps its value and gets the
    change listener. *)
Theorem init_without_row (page : Document) :
  days_of_week page = None ->
  exists doc,
    onDOMContentLoaded page = Normal (tt, doc)
    /\ days_of_week doc = None
    /\ head_styles doc = (head_styles page ++ [style_textContent])%list
    /\ window_toggleDaysOfWeek doc = true
    /\ recurrence_type doc = option_map subscribed (recurrence_type page).
Proof.
  intros Hr. rewrite init_run. eexists. split; [reflexivity|].
  unfold initialized; cbn. rewrite Hr. repeat split.
Qed.

Lemma init_without_row_witness :
  exists doc,
    onDOMContentLoaded (mkDocument (Some (mkSelect "weekly" 0)) None [] false)
    = Normal (tt, doc)
    /\ days_of_week doc = None
    /\ head_styles doc = [style_textContent]
    /\ window_toggleDaysOfWeek doc = true
    /\ recurrence_type doc = Some (mkSelect "weekly" 1).
Proof.
  apply (init_without_row
           (mkDocument (Some (mkSelect "weekly" 0)) None [] false)).
  reflexivity.
Defined.

(** *** Two calls in a row *)

Lemma with_row_twice (doc : Document) (a b : Row) :
  with_row (with_row doc a) b = with_row doc b.
Proof. reflexivity. Qed.

Lemma toggle_weekly_twice (doc : Document) :
  exists doc1,
    toggleDaysOfWeek (JSString "weekly") doc = Normal (tt, doc1)
    /\ toggleDaysOfWeek (JSString "weekly") doc1 = Normal (tt, doc1).
Proof.
  rewrite toggle_run. eexists. split; [reflexivity|].
  rewrite toggle_run. destruct (days_of_week doc) as [r|] eqn:Hr.
  - cbn. unfold toggled; cbn. rewrite shown_idempotent. reflexivity.
  - rewrite Hr. reflexivity.
Qed.

(** C5, as stated, fails: on a label whose text already shows asterisks the
    weekly branch never appends its marker, so after two calls the label
    holds no marker of the script and two asterisks, not exactly one of
    either. *)
Lemma weekly_twice_on_starred_label :
  exists doc1 doc2 r l,
    toggleDaysOfWeek (JSString "weekly") starred_twice_page = Normal (tt, doc1)
    /\ toggleDaysOfWeek (JSString "weekly") doc1 = Normal (tt, doc2)
    /\ days_of_week doc2 = Some r
    /\ label r = Some l
    /\ occurrences (innerHTML l) marker = 0
    /\ count_char "*" (textContent l) = 2.
Proof.
  do 2 eexists. exists (shown (sample_row "Mon * Tue *" false false)).
  exists (sample_label "Mon * Tue *").
  split; [reflexivity|]. split; [reflexivity|]. repeat split.
Qed.

(** C5, amended.  A second call of [toggleDaysOfWeek('weekly')] in a row
    never changes the page, so it never appends a second marker; and when
    the label is present, its text shows no asterisk and its markup does
    not hold the marker string before the first call, the label after the
    two calls is the original markup followed by the marker: the marker
    occurs exactly once in it and its text shows exactly one asterisk. *)
Theorem weekly_twice_one_marker (doc : Document) :
  exists doc1,
    toggleDaysOfWeek (JSString "weekly") doc = Normal (tt, doc1)
    /\ toggleDaysOfWeek (JSString "weekly") doc1 = Normal (tt, doc1)
    /\ (forall r l,
          days_of_week doc = Some r ->
          label r = Some l ->
          includes (textContent l) "*" = false ->
          includes (innerHTML l) marker = false ->
          exists r1 l1,
            days_of_week doc1 = Some r1
            /\ label r1 = Some l1
            /\ innerHTML l1 = innerHTML l ++ marker
            /\ occurrences (innerHTML l1) marker = 1
            /\ count_char "*" (textContent l1) = 1).
Proof.
  destruct (toggle_weekly_twice doc) as [doc1 [H1 H2]].
  exists doc1. split; [exact H1|]. split; [exact H2|].
  intros r l Hr Hl Hclean Hnone.
  rewrite (toggle_weekly (JSString "weekly") doc r eq_refl Hr) in H1.
  injection H1 as <-.
  exists (shown r), (mkLabel (innerHTML l ++ marker) (parser l)).
  split; [reflexivity|]. split.
  { cbn. rewrite Hl. cbn. now rewrite mark_clean. }
  split; [reflexivity|]. cbn [innerHTML]. split.
  - rewrite occurrences_appended_marker. f_equal.
    apply includes_occurrences, Hnone.
  - unfold textContent; cbn [innerHTML parser]. rewrite text_of_appended.
    f_equal. apply includes_char, Hclean.
Qed.

Lemma weekly_twice_one_marker_witness :
  exists doc1,
    toggleDaysOfWeek (JSString "weekly") (sample_page "weekly" "Days" true false)
    = Normal (tt, doc1)
    /\ toggleDaysOfWeek (JSString "weekly") doc1 = Normal (tt, doc1)
    /\ exists r1 l1,
         days_of_week doc1 = Some r1
         /\ label r1 = Some l1
         /\ innerHTML l1 = "Days" ++ marker
         /\ occurrences (innerHTML l1) marker = 1
         /\ count_char "*" (textContent l1) = 1.
Proof.
  destruct (weekly_twice_one_marker (sample_page "weekly" "Days" true false))
    as [doc1 [H1 [H2 H3]]].
  exists doc1. split; [exact H1|]. split; [exact H2|].
  apply (H3 (sample_row "Days" true false) (sample_label "Days"));
    reflexivity.
Defined.

(** *** The non-weekly branch *)

Lemma unmark_script_marked (l : Label) :
  script_marked (Some l) ->
  includes (innerHTML (unmark l)) marker = false.
Proof.
  intros [h [Hh [E | E]]]; destruct l as [html]; cbn in *; subst html.
  - now rewrite replace_absent.
  - now rewrite replace_appended_marker.
Qed.

Lemma hidden_idempotent (r : Row) :
  script_marked (label r) -> hidden (hidden r) = hidden r.
Proof.
  destruct r as [st lb cbs ol]. unfold hidden; cbn. intros H.
  rewrite uncheck_idempotent. destruct lb as [l|]; cbn; [|reflexivity].
  rewrite (unmark_clean (unmark l)); [reflexivity|].
  now apply unmark_script_marked.
Qed.

(** C6, as stated, fails: [replace] removes the first occurrence only, so
    on a label that holds the marker twice one call leaves one marker
    behind, and a second call changes the label again. *)
Lemma non_weekly_on_marked_twice :
  exists doc1 doc2 r1 l1,
    toggleDaysOfWeek (JSString "monthly") marked_twice_page = Normal (tt, doc1)
    /\ days_of_week doc1 = Some r1
    /\ label r1 = Some l1
    /\ occurrences (innerHTML l1) marker = 1
    /\ count_char "*" (textContent l1) = 1
    /\ toggleDaysOfWeek (JSString "monthly") doc1 = Normal (tt, doc2)
    /\ doc2 <> doc1.
Proof.
  pose (r0 := sample_row ("Days" ++ marker ++ marker) true true).
  exists (with_row marked_twice_page (hidden r0)).
  exists (with_row marked_twice_page (hidden (hidden r0))).
  exists (hidden r0), (sample_label ("Days" ++ marker)).
  split; [now apply toggle_other|]. split; [reflexivity|].
  split; [reflexivity|]. split; [reflexivity|]. split; [reflexivity|].
  split.
  { rewrite (toggle_other (JSString "monthly")
               (with_row marked_twice_page (hidden r0)) (hidden r0)
               eq_refl eq_refl).
    reflexivity. }
  intros H. apply (f_equal days_of_week) in H.
  vm_compute in H. discriminate.
Qed.

(** C6, amended.  After [toggleDaysOfWeek(v)] for a non-weekly [v], whatever
    the prior state, the container is hidden, it has the same number of
    checkboxes and every one of them is unchecked, and the label has lost the
    first occurrence of the marker.  When the label before the call held no
    marker, or only the one the weekly branch appends to a marker-free
    label, the label holds no marker afterwards and repeating the call
    changes nothing. *)
Theorem non_weekly_clears (v : JSValue) (doc : Document) (r : Row) :
  v <> JSString "weekly" ->
  days_of_week doc = Some r ->
  exists doc1 r1,
    toggleDaysOfWeek v doc = Normal (tt, doc1)
    /\ days_of_week doc1 = Some r1
    /\ display (row_style r1) = "none"
    /\ List.length (checkboxes r1) = List.length (checkboxes r)
    /\ Forall (fun c => checked c = false) (checkboxes r1)
    /\ label r1 = option_map unmark (label r)
    /\ (script_marked (label r) ->
        (forall l1, label r1 = Some l1 ->
                    occurrences (innerHTML l1) marker = 0)
        /\ toggleDaysOfWeek v doc1 = Normal (tt, doc1)).
Proof.
  intros Hv Hr. apply not_weekly in Hv.
  rewrite (toggle_other v doc r Hv Hr).
  exists (with_row doc (hidden r)), (hidden r).
  split; [reflexivity|]. split; [reflexivity|]. split; [reflexivity|].
  split; [cbn; apply length_map|]. split; [apply unchecked_all|].
  split; [reflexivity|]. intros Hm. split.
  - cbn. intros l1 Hl1. destruct (label r) as [l|]; [|discriminate].
    cbn in Hl1. injection Hl1 as <-.
    apply includes_occurrences. now apply unmark_script_marked.
  - rewrite (toggle_other v (with_row doc (hidden r)) (hidden r) Hv eq_refl).
    rewrite with_row_twice, hidden_idempotent by exact Hm. reflexivity.
Qed.

Lemma non_weekly_clears_witness :
  exists doc1 r1,
    toggleDaysOfWeek (JSString "daily")
                     (sample_page "weekly" ("Days" ++ marker) true true)
    = Normal (tt, doc1)
    /\ days_of_week doc1 = Some r1
    /\ display (row_style r1) = "none"
    /\ List.length (checkboxes r1) = 3
    /\ Forall (fun c => checked c = false) (checkboxes r1)
    /\ label r1 = Some (sample_label "Days")
    /\ (forall l1, label r1 = Some l1 -> occurrences (innerHTML l1) marker = 0)
    /\ toggleDaysOfWeek (JSString "daily") doc1 = Normal (tt, doc1).
Proof.
  destruct (non_weekly_clears (JSString "daily")
              (sample_page "weekly" ("Days" ++ marker) true true)
              (sample_row ("Days" ++ marker) true true))
    as [doc1 [r1 [H1 [H2 [H3 [H4 [H5 [H6 H7]]]]]]]];
    [discriminate | reflexivity |].
  exists doc1, r1. repeat (split; [assumption|]).
  apply H7. exists "Days". split; [reflexivity | right; reflexivity].
Defined.

(** *** Reachable states *)

Lemma onChange_run (doc : Document) (s : Select) :
  recurrence_type doc = Some s ->
  onChange (Some SelectNode) doc
  = Normal (tt, match days_of_week doc with
                | Some r => with_row doc (toggled (JSString (value s)) r)
                | None => doc
                end).
Proof.
  intros H. unfold onChange.
  assert (Hv : get_value (Some SelectNode) doc = Normal (value s, doc))
    by (unfold get_value; now rewrite H).
  rewrite (bind_normal _ _ _ _ _ Hv). apply toggle_run.
Qed.

Lemma starred_loaded_reachable : reachable starred_page starred_loaded.
Proof. apply reach_init. rewrite init_run. reflexivity. Qed.

Lemma starred_daily_reachable : reachable starred_page starred_daily.
Proof.
  apply (reach_change _ starred_loaded "daily").
  - exact starred_loaded_reachable.
  - unfold change, starred_loaded; cbn [recurrence_type change_listeners times].
    erewrite bind_normal by (apply onChange_run; reflexivity).
    reflexivity.
Qed.

(** C2, as stated, fails on [starred_page]: right after initialization the
    value is [weekly] and the container is visible, yet the label holds no
    marker of the script; after a change to [daily] the container is hidden,
    yet the label's text still shows an asterisk.  So under either reading
    of the marker a reachable state is inconsistent. *)
Lemma reachable_inconsistent_on_starred_label :
  (exists doc, reachable starred_page doc /\ ~ consistent marker_in_markup doc)
  /\ (exists doc, reachable starred_page doc /\ ~ consistent star_in_text doc).
Proof.
  split.
  - exists starred_loaded. split; [exact starred_loaded_reachable|].
    intros [s [r [l [Hs [Hr [Hl H]]]]]].
    injection Hs as <-. injection Hr as <-. injection Hl as <-.
    vm_compute in H. destruct H as [_ H]. discriminate.
  - exists starred_daily. split; [exact starred_daily_reachable|].
    intros [s [r [l [Hs [Hr [Hl H]]]]]].
    injection Hs as <-. injection Hr as <-. injection Hl as <-.
    vm_compute in H. destruct H as [_ H]. discriminate.
Qed.

Section Invariant.

Variable p : Parser.
Variable h : string.
Hypothesis h_clean : star_in_text (mkLabel h p) = false.
Hypothesis h_unmarked : includes h marker = false.

Lemma toggled_settles (v : string) (r : Row) :
  tame p h r -> row_settled p h v (toggled (JSString v) r).
Proof.
  intros Ht. unfold row_settled, toggled, is_weekly. cbn [strict_equals].
  destruct (String.eqb v "weekly").
  - split; [reflexivity|]. cbn. destruct Ht as [-> | ->]; cbn; f_equal.
    + now apply mark_clean.
    + apply mark_marked, text_of_marked.
  - split; [reflexivity|]. split; [|apply unchecked_all].
    cbn. destruct Ht as [-> | ->]; cbn; f_equal.
    + apply unmark_clean, h_unmarked.
    + apply unmark_marked, h_unmarked.
Qed.

Lemma settled_tame (v : string) (r : Row) : row_settled p h v r -> tame p h r.
Proof.
  unfold row_settled, tame. destruct (String.eqb v "weekly"); intuition.
Qed.

Lemma lay_out_settled (v : string) (r : Row) :
  row_settled p h v r -> row_settled p h v (lay_out r).
Proof. unfold row_settled, lay_out; cbn. trivial. Qed.

(** One or more runs of the change listener settle the row. *)
Lemma times_onChange (n : nat) (doc : Document) (s : Select) (r : Row) :
  recurrence_type doc = Some s ->
  days_of_week doc = Some r ->
  tame p h r ->
  exists r',
    times (S n) (onChange (Some SelectNode)) doc
    = Normal (tt, with_row doc r')
    /\ row_settled p h (value s) r'.
Proof.
  revert doc r; induction n as [|n IH]; intros doc r Hs Hr Ht.
  - exists (toggled (JSString (value s)) r). split.
    + cbn [times]. rewrite (bind_normal _ _ _ _ _ (onChange_run doc s Hs)).
      now rewrite Hr.
    + now apply toggled_settles.
  - pose (r1 := toggled (JSString (value s)) r).
    destruct (IH (with_row doc r1) r1 Hs eq_refl) as [r' [Hrun Hset]].
    { apply (settled_tame (value s)). now apply toggled_settles. }
    exists r'. split; [|exact Hset].
    change (times (S (S n)) (onChange (Some SelectNode)))
      with (onChange (Some SelectNode) ;;
            times (S n) (onChange (Some SelectNode))).
    rewrite (bind_normal _ _ _ _ _ (onChange_run doc s Hs)).
    rewrite Hr. exact Hrun.
Qed.

Lemma init_settled (page : Document) (s : Select) (r : Row) :
  recurrence_type page = Some s ->
  days_of_week page = Some r ->
  label r = Some (mkLabel h p) ->
  settled p h (initialized page).
Proof.
  intros Hs Hr Hl. unfold settled, initialized. rewrite Hs, Hr.
  exists (subscribed s), (lay_out (toggled (JSString (value s)) r)).
  split; [reflexivity|]. split; [cbn; lia|].
  split; [reflexivity|].
  apply lay_out_settled, toggled_settles. now left.
Qed.

Lemma change_settled (v : string) (doc : Document) :
  settled p h doc ->
  exists doc', change v doc = Normal (tt, doc') /\ settled p h doc'.
Proof.
  intros [s [r [Hs [Hn [Hr Hset]]]]]. unfold change. rewrite Hs.
  destruct (change_listeners s) as [|n] eqn:En; [lia|].
  destruct (times_onChange n
              (with_select doc (mkSelect v (S n))) (mkSelect v (S n)) r
              eq_refl Hr (settled_tame _ _ Hset)) as [r' [Hrun Hset']].
  eexists. split; [exact Hrun|].
  exists (mkSelect v (S n)), r'. cbn. repeat split; [lia | exact Hset'].
Qed.

Lemma settled_consistent (doc : Document) :
  settled p h doc ->
  consistent marker_in_markup doc /\ consistent star_in_text doc.
Proof.
  intros [s [r [Hs [_ [Hr Hset]]]]]. unfold row_settled in Hset.
  unfold consistent.
  destruct (String.eqb (value s) "weekly") eqn:Ev.
  - destruct Hset as [Hd Hl]. split.
    + exists s, r, (mkLabel (h ++ marker) p). rewrite Ev. repeat split; auto.
      unfold marker_in_markup; cbn [innerHTML].
      destruct (includes (h ++ marker) marker) eqn:E; [reflexivity|].
      apply includes_occurrences in E.
      rewrite occurrences_appended_marker in E. discriminate.
    + exists s, r, (mkLabel (h ++ marker) p). rewrite Ev. repeat split; auto.
      apply text_of_marked.
  - destruct Hset as [Hd [Hl _]]. split.
    + exists s, r, (mkLabel h p). rewrite Ev. repeat split; auto.
    + exists s, r, (mkLabel h p). rewrite Ev. repeat split; auto.
Qed.

Lemma reachable_settled (page : Document) (s : Select) (r : Row) :
  recurrence_type page = Some s ->
  days_of_week page = Some r ->
  label r = Some (mkLabel h p) ->
  forall doc, reachable page doc -> settled p h doc.
Proof.
  intros Hs Hr Hl doc Hreach. induction Hreach as [doc Hi | doc v doc' _ IH Hc].
  - rewrite init_run in Hi. injection Hi as <-.
    now apply (init_settled page s r).
  - destruct (change_settled v doc IH) as [doc'' [Hrun Hset]].
    rewrite Hrun in Hc. injection Hc as <-. exact Hset.
Qed.

End Invariant.

(** C2, amended.  On a page that has the select, the container and a label
    whose text shows no asterisk and whose markup does not hold the marker
    string when the script loads, initialization completes, every change
    event completes, and in every state reachable from initialization
    through change events the container agrees with the select's current
    value: visible with the marker in the label if the value is [weekly],
    hidden with no marker otherwise, under either reading of the marker. *)
Theorem reachable_consistent (page : Document) (s : Select) (r : Row) (l : Label) :
  recurrence_type page = Some s ->
  days_of_week page = Some r ->
  label r = Some l ->
  star_in_text l = false ->
  marker_in_markup l = false ->
  (exists doc, onDOMContentLoaded page = Normal (tt, doc))
  /\ forall doc,
       reachable page doc ->
       consistent marker_in_markup doc
       /\ consistent star_in_text doc
       /\ forall v, exists doc', change v doc = Normal (tt, doc').
Proof.
  intros Hs Hr Hl Hclean Hnone. destruct l as [h p]. split.
  - eexists. apply init_run.
  - intros doc Hreach.
    pose proof (reachable_settled p h Hclean Hnone page s r Hs Hr Hl doc Hreach)
      as Hset.
    destruct (settled_consistent p h Hclean Hnone doc Hset) as [H1 H2].
    split; [exact H1|]. split; [exact H2|].
    intros v.
    destruct (change_settled p h Hclean Hnone v doc Hset) as [doc' [Hrun _]].
    now exists doc'.
Qed.

Lemma reachable_consistent_witness :
  (exists doc, onDOMContentLoaded plain_page = Normal (tt, doc))
  /\ forall doc,
       reachable plain_page doc ->
       consistent marker_in_markup doc
       /\ consistent star_in_text doc
       /\ forall v, exists doc', change v doc = Normal (tt, doc').
Proof.
  apply (reachable_consistent plain_page (mkSelect "daily" 0)
           (sample_row "Days" true true) (sample_label "Days"));
    reflexivity.
Defined.


(** ** Further properties of the script *)

(** *** What [toggleDaysOfWeek] leaves alone *)

Lemma uncheck_values (cbs : list Checkbox) :
  map checkbox_value (map uncheck cbs) = map checkbox_value cbs.
Proof. rewrite map_map. apply map_ext. reflexivity. Qed.

Lemma reparsed_values (cbs : list Checkbox) :
  map checkbox_value (map reparsed cbs) = map checkbox_value cbs.
Proof.
  rewrite map_map. apply map_ext. intros [v c d n].
  unfold reparsed; cbn. destruct n; reflexivity.
Qed.

Lemma toggled_frame (v : JSValue) (r : Row) :
  option_list (toggled v r) = option_list r
  /\ map checkbox_value (checkboxes (toggled v r))
     = map checkbox_value (checkboxes r)
  /\ listStyle (row_style (toggled v r)) = listStyle (row_style r)
  /\ padding (row_style (toggled v r)) = padding (row_style r)
  /\ gridTemplateColumns (row_style (toggled v r))
     = gridTemplateColumns (row_style r)
  /\ gap (row_style (toggled v r)) = gap (row_style r)
  /\ (label (toggled v r) = None <-> label r = None).
Proof.
  unfold toggled. destruct (is_weekly v); cbn.
  - split; [reflexivity|]. split.
    { destruct (appends (label r)); [apply reparsed_values | reflexivity]. }
    repeat split; destruct (label r); cbn; congruence.
  - split; [reflexivity|]. split; [apply uncheck_values|].
    repeat split; destruct (label r); cbn; congruence.
Qed.

(** X1.  A call of [toggleDaysOfWeek], whatever its argument, completes and
    writes nothing but the container's display, its label's markup and the
    checked state of its checkboxes: the select, the head and the global
    stay as they are, a page without the container stays without one, and
    in the container the option list, the values and number of the
    checkboxes, the other style properties and the presence of the label
    are kept. *)
Theorem toggle_frame (v : JSValue) (doc : Document) :
  exists doc',
    toggleDaysOfWeek v doc = Normal (tt, doc')
    /\ recurrence_type doc' = recurrence_type doc
    /\ head_styles doc' = head_styles doc
    /\ window_toggleDaysOfWeek doc' = window_toggleDaysOfWeek doc
    /\ match days_of_week doc with
       | None => days_of_week doc' = None
       | Some r =>
           exists r',
             days_of_week doc' = Some r'
             /\ option_list r' = option_list r
             /\ map checkbox_value (checkboxes r')
                = map checkbox_value (checkboxes r)
             /\ listStyle (row_style r') = listStyle (row_style r)
             /\ padding (row_style r') = padding (row_style r)
             /\ gridTemplateColumns (row_style r')
                = gridTemplateColumns (row_style r)
             /\ gap (row_style r') = gap (row_style r)
             /\ (label r' = None <-> label r = None)
       end.
Proof.
  rewrite toggle_run. eexists. split; [reflexivity|].
  destruct (days_of_week doc) as [r|] eqn:Hr.
  - cbn. repeat split. exists (toggled v r). split; [reflexivity|].
    apply toggled_frame.
  - repeat split. exact Hr.
Qed.

(** *** The weekly branch and the way back *)

(** X2.  After [toggleDaysOfWeek('weekly')] on a container that has a label,
    the label's text always shows an asterisk, and its markup is the markup
    before the call, either as it was or followed by the marker. *)
Theorem weekly_label_shows_star (doc : Document) (r : Row) (l : Label) :
  days_of_week doc = Some r ->
  label r = Some l ->
  exists doc' r' l',
    toggleDaysOfWeek (JSString "weekly") doc = Normal (tt, doc')
    /\ days_of_week doc' = Some r'
    /\ label r' = Some l'
    /\ includes (textContent l') "*" = true
    /\ (innerHTML l' = innerHTML l \/ innerHTML l' = innerHTML l ++ marker).
Proof.
  intros Hr Hl.
  rewrite (toggle_weekly (JSString "weekly") doc r eq_refl Hr).
  exists (with_row doc (shown r)), (shown r), (mark l).
  split; [reflexivity|]. split; [reflexivity|].
  split; [cbn; now rewrite Hl|].
  destruct (includes (textContent l) "*") eqn:E.
  - rewrite (mark_marked l E). split; [exact E | now left].
  - rewrite (mark_clean l E). split; [apply text_of_marked | now right].
Qed.

Lemma weekly_label_shows_star_witness :
  exists doc' r' l',
    toggleDaysOfWeek (JSString "weekly") plain_page = Normal (tt, doc')
    /\ days_of_week doc' = Some r'
    /\ label r' = Some l'
    /\ includes (textContent l') "*" = true
    /\ (innerHTML l' = "Days" \/ innerHTML l' = "Days" ++ marker).
Proof.
  apply (weekly_label_shows_star plain_page (sample_row "Days" true true)
           (sample_label "Days"));
    reflexivity.
Defined.

(** X3.  Round trip of the marker: on a label whose text shows no asterisk
    and whose markup does not hold the marker string,
    [toggleDaysOfWeek('weekly')] followed by a call with any other value
    leaves the label exactly as it was before the two calls, with the
    container hidden. *)
Theorem weekly_then_other_restores_label
        (v : JSValue) (doc : Document) (r : Row) (l : Label) :
  v <> JSString "weekly" ->
  days_of_week doc = Some r ->
  label r = Some l ->
  includes (textContent l) "*" = false ->
  includes (innerHTML l) marker = false ->
  exists doc1 doc2 r2,
    toggleDaysOfWeek (JSString "weekly") doc = Normal (tt, doc1)
    /\ toggleDaysOfWeek v doc1 = Normal (tt, doc2)
    /\ days_of_week doc2 = Some r2
    /\ label r2 = Some l
    /\ display (row_style r2) = "none".
Proof.
  intros Hv Hr Hl Hclean Hnone.
  exists (with_row doc (shown r)), (with_row doc (hidden (shown r))).
  exists (hidden (shown r)).
  split; [now apply toggle_weekly|]. split.
  { rewrite (toggle_other v (with_row doc (shown r)) (shown r)
               (not_weekly v Hv) eq_refl).
    reflexivity. }
  split; [reflexivity|]. split; [|reflexivity].
  cbn. rewrite Hl. cbn. rewrite (mark_clean l Hclean).
  rewrite unmark_marked by exact Hnone.
  now destruct l.
Qed.

Lemma weekly_then_other_restores_label_witness :
  exists doc1 doc2 r2,
    toggleDaysOfWeek (JSString "weekly") plain_page = Normal (tt, doc1)
    /\ toggleDaysOfWeek (JSString "daily") doc1 = Normal (tt, doc2)
    /\ days_of_week doc2 = Some r2
    /\ label r2 = Some (sample_label "Days")
    /\ display (row_style r2) = "none".
Proof.
  apply (weekly_then_other_restores_label (JSString "daily") plain_page
           (sample_row "Days" true true) (sample_label "Days"));
    [discriminate | reflexivity | reflexivity | reflexivity | reflexivity].
Defined.

(** *** Initialization and change events, whatever the label *)

Lemma weekly_string (v : string) :
  is_weekly (JSString v) = String.eqb v "weekly".
Proof. reflexivity. Qed.

Lemma toggled_display (v : string) (r : Row) :
  (display (row_style (toggled (JSString v) r)) = "block" <-> v = "weekly")
  /\ (v <> "weekly" ->
      display (row_style (toggled (JSString v) r)) = "none"
      /\ Forall (fun c => checked c = false)
                (checkboxes (toggled (JSString v) r)))
  /\ (v = "weekly" ->
      Forall2 same_box (checkboxes r) (checkboxes (toggled (JSString v) r))).
Proof.
  unfold toggled. rewrite weekly_string.
  destruct (String.eqb_spec v "weekly") as [-> | Hne]; cbn.
  - split; [tauto|]. split; [intros H; contradiction|].
    intros _. destruct (appends (label r));
      [apply reparsed_same_box | apply same_box_refl].
  - split; [split; [discriminate | contradiction]|].
    split; [|contradiction].
    intros _. split; [reflexivity | apply unchecked_all].
Qed.

(** X4.  On a page that has the select and the container, initialization
    completes and leaves the container visible if and only if the select's
    value at load time is [weekly], with no change event needed; for any
    other value the container is hidden and all its checkboxes are
    unchecked, and for [weekly] the checkboxes are the same ones and those
    outside the container's first label keep their state.  The select keeps
    its value and gains exactly one change listener. *)
Theorem init_visible_iff_weekly (page : Document) (s : Select) (r : Row) :
  recurrence_type page = Some s ->
  days_of_week page = Some r ->
  exists doc r',
    onDOMContentLoaded page = Normal (tt, doc)
    /\ recurrence_type doc
       = Some (mkSelect (value s) (S (change_listeners s)))
    /\ days_of_week doc = Some r'
    /\ (display (row_style r') = "block" <-> value s = "weekly")
    /\ (value s <> "weekly" ->
        display (row_style r') = "none"
        /\ Forall (fun c => checked c = false) (checkboxes r'))
    /\ (value s = "weekly" -> Forall2 same_box (checkboxes r) (checkboxes r')).
Proof.
  intros Hs Hr. rewrite init_run.
  exists (initialized page), (lay_out (toggled (JSString (value s)) r)).
  split; [reflexivity|]. unfold initialized. rewrite Hs, Hr.
  split; [reflexivity|]. split; [reflexivity|].
  apply toggled_display.
Qed.

Lemma init_visible_iff_weekly_witness :
  exists doc r',
    onDOMContentLoaded (sample_page "weekly" "Days" true false)
    = Normal (tt, doc)
    /\ recurrence_type doc = Some (mkSelect "weekly" 1)
    /\ days_of_week doc = Some r'
    /\ (display (row_style r') = "block" <-> "weekly" = "weekly")
    /\ ("weekly" <> "weekly" ->
        display (row_style r') = "none"
        /\ Forall (fun c => checked c = false) (checkboxes r'))
    /\ ("weekly" = "weekly" ->
        Forall2 same_box (week_boxes true false) (checkboxes r')).
Proof.
  apply (init_visible_iff_weekly (sample_page "weekly" "Days" true false)
           (mkSelect "weekly" 0) (sample_row "Days" true false));
    reflexivity.
Defined.

(** One or more runs of the change listener, on any row. *)
Lemma times_onChange_row (n : nat) (doc : Document) (s : Select) (r : Row) :
  recurrence_type doc = Some s ->
  days_of_week doc = Some r ->
  exists r',
    times (S n) (onChange (Some SelectNode)) doc = Normal (tt, with_row doc r')
    /\ row_style r'
       = set_display (if String.eqb (value s) "weekly" then "block" else "none")
                     (row_style r)
    /\ option_list r' = option_list r
    /\ map checkbox_value (checkboxes r') = map checkbox_value (checkboxes r)
    /\ (value s <> "weekly" ->
        Forall (fun c => checked c = false) (checkboxes r')).
Proof.
  revert doc r; induction n as [|n IH]; intros doc r Hs Hr.
  - exists (toggled (JSString (value s)) r). split.
    + cbn [times]. rewrite (bind_normal _ _ _ _ _ (onChange_run doc s Hs)).
      now rewrite Hr.
    + destruct (toggled_frame (JSString (value s)) r) as [Fol [Fval _]].
      split; [|split; [exact Fol | split; [exact Fval|]]].
      * unfold toggled. rewrite weekly_string.
        destruct (String.eqb (value s) "weekly"); reflexivity.
      * intros E. now apply toggled_display.
  - pose (r1 := toggled (JSString (value s)) r).
    destruct (IH (with_row doc r1) r1 Hs eq_refl)
      as [r' [Hrun [Hst [Hol [Hval Hun]]]]].
    exists r'. split.
    { change (times (S (S n)) (onChange (Some SelectNode)))
        with (onChange (Some SelectNode) ;;
              times (S n) (onChange (Some SelectNode))).
      rewrite (bind_normal _ _ _ _ _ (onChange_run doc s Hs)).
      rewrite Hr. exact Hrun. }
    destruct (toggled_frame (JSString (value s)) r) as [Fol [Fval _]].
    fold r1 in Fol, Fval.
    split; [|split; [congruence | split; [congruence | exact Hun]]].
    rewrite Hst. unfold r1, toggled. rewrite weekly_string.
    destruct (String.eqb (value s) "weekly"); reflexivity.
Qed.

(** X5.  On a page that has the select and the container, whatever the
    label, every state reachable from initialization through change events
    has the container visible if and only if the select's current value is
    [weekly], and hidden with every checkbox unchecked otherwise.  Change
    events add no style block and no listener, keep the option list as
    initialization laid it out, and keep the number and values of the
    checkboxes. *)
Theorem reachable_visibility (page : Document) (s : Select) (r : Row) :
  recurrence_type page = Some s ->
  days_of_week page = Some r ->
  forall doc,
    reachable page doc ->
    exists s' r',
      recurrence_type doc = Some s'
      /\ days_of_week doc = Some r'
      /\ (display (row_style r') = "block" <-> value s' = "weekly")
      /\ (value s' <> "weekly" ->
          display (row_style r') = "none"
          /\ Forall (fun c => checked c = false) (checkboxes r'))
      /\ change_listeners s' = S (change_listeners s)
      /\ head_styles doc = (head_styles page ++ [style_textContent])%list
      /\ option_list r' = option_map laid_out (option_list r)
      /\ map checkbox_value (checkboxes r')
         = map checkbox_value (checkboxes r).
Proof.
  intros Hs Hr doc Hreach.
  assert (Hinv : exists s' r',
             recurrence_type doc = Some s'
             /\ days_of_week doc = Some r'
             /\ row_style r'
                = set_display
                    (if String.eqb (value s') "weekly" then "block" else "none")
                    (row_style r)
             /\ (value s' <> "weekly" ->
                 Forall (fun c => checked c = false) (checkboxes r'))
             /\ change_listeners s' = S (change_listeners s)
             /\ head_styles doc = (head_styles page ++ [style_textContent])%list
             /\ option_list r' = option_map laid_out (option_list r)
             /\ map checkbox_value (checkboxes r')
                = map checkbox_value (checkboxes r)).
  { induction Hreach as [doc Hi | doc v doc' _ IH Hc].
    - rewrite init_run in Hi. injection Hi as <-.
      exists (subscribed s), (lay_out (toggled (JSString (value s)) r)).
      unfold initialized. rewrite Hs, Hr.
      split; [reflexivity|]. split; [reflexivity|].
      destruct (toggled_frame (JSString (value s)) r) as [Fol [Fval _]].
      destruct (toggled_display (value s) r) as [_ [Hnone _]].
      cbn. split.
      { unfold toggled. rewrite weekly_string.
        destruct (String.eqb (value s) "weekly"); reflexivity. }
      split; [intros H; now apply Hnone|].
      split; [reflexivity|]. split; [reflexivity|].
      split; [now rewrite Fol | exact Fval].
    - destruct IH as [s1 [r1 [Hs1 [Hr1 [Hst [_ [Hn [Hh [Hol Hval]]]]]]]]].
      unfold change in Hc. rewrite Hs1, Hn in Hc.
      destruct (times_onChange_row (change_listeners s)
                  (with_select doc (mkSelect v (S (change_listeners s))))
                  (mkSelect v (S (change_listeners s))) r1 eq_refl Hr1)
        as [r' [Hrun [Hst' [Hol' [Hval' Hun']]]]].
      rewrite Hrun in Hc. injection Hc as <-.
      exists (mkSelect v (S (change_listeners s))), r'.
      split; [reflexivity|]. split; [reflexivity|]. cbn [value] in *.
      split.
      { rewrite Hst', Hst. reflexivity. }
      split; [exact Hun'|]. split; [reflexivity|]. split; [exact Hh|].
      split; congruence. }
  destruct Hinv as [s' [r' [H1 [H2 [Hst [Hun [H5 [H6 [H7 H8]]]]]]]]].
  exists s', r'. split; [exact H1|]. split; [exact H2|].
  rewrite Hst. cbn [display set_display].
  destruct (String.eqb_spec (value s') "weekly") as [E | E].
  - repeat split; auto; contradiction.
  - repeat split; auto; try discriminate; contradiction.
Qed.

Lemma reachable_visibility_witness :
  exists s' r',
    recurrence_type starred_daily = Some s'
    /\ days_of_week starred_daily = Some r'
    /\ (display (row_style r') = "block" <-> value s' = "weekly")
    /\ (value s' <> "weekly" ->
        display (row_style r') = "none"
        /\ Forall (fun c => checked c = false) (checkboxes r'))
    /\ change_listeners s' = 1
    /\ head_styles starred_daily = [style_textContent]
    /\ option_list r' = Some (laid_out sample_list)
    /\ map checkbox_value (checkboxes r') = ["0"; "1"; "2"].
Proof.
  apply (reachable_visibility starred_page (mkSelect "weekly" 0)
           (sample_row "Days *" false false) eq_refl eq_refl
           starred_daily starred_daily_reachable).
Defined.

(** *** Initialization run again, and the layout of the list *)

Lemma classList_add_spec (c : string) (li : ListItem) :
  (In c (classList li) -> classList_add c li = li)
  /\ (~ In c (classList li) ->
      classList (classList_add c li) = (classList li ++ [c])%list).
Proof.
  unfold classList_add.
  destruct (existsb (String.eqb c) (classList li)) eqn:E.
  - split; [reflexivity|]. intros Hn. exfalso. apply Hn.
    apply existsb_exists in E as [x [Hx Heq]].
    apply String.eqb_eq in Heq. now subst.
  - split; [|reflexivity]. intros Hin. exfalso.
    assert (Ht : existsb (String.eqb c) (classList li) = true).
    { apply existsb_exists. exists c. split; [exact Hin|].
      apply String.eqb_refl. }
    congruence.
Qed.

Lemma classList_add_idempotent (c : string) (li : ListItem) :
  classList_add c (classList_add c li) = classList_add c li.
Proof. apply classList_add_spec, classList_add_In. Qed.

Lemma laid_out_idempotent (ul : OptionList) :
  laid_out (laid_out ul) = laid_out ul.
Proof.
  unfold laid_out; cbn. f_equal. rewrite map_map.
  apply map_ext. intros li. apply classList_add_idempotent.
Qed.

Lemma lay_out_toggled_again (v : JSValue) (r : Row) :
  let r1 := lay_out (toggled v r) in
  let r2 := lay_out (toggled v r1) in
  row_style r2 = row_style r1
  /\ checkboxes r2 = checkboxes r1
  /\ option_list r2 = option_list r1.
Proof.
  unfold toggled. destruct r as [st lb cbs ol].
  destruct (is_weekly v); cbn.
  - rewrite appends_marked. repeat split.
    destruct ol as [ul|]; cbn; [now rewrite laid_out_idempotent | reflexivity].
  - repeat split; [apply uncheck_idempotent|].
    destruct ol as [ul|]; cbn; [now rewrite laid_out_idempotent | reflexivity].
Qed.

(** X6.  Initialization has no guard against running twice: a second run
    appends a second copy of the style block to the head and registers a
    second change listener on the select.  It leaves the container's
    style, its checkboxes and its laid-out option list as the first run
    left them. *)
Theorem init_twice (page : Document) :
  exists doc1 doc2,
    onDOMContentLoaded page = Normal (tt, doc1)
    /\ onDOMContentLoaded doc1 = Normal (tt, doc2)
    /\ head_styles doc2
       = (head_styles page ++ [style_textContent; style_textContent])%list
    /\ recurrence_type doc2
       = option_map (fun s => mkSelect (value s) (S (S (change_listeners s))))
                    (recurrence_type page)
    /\ match days_of_week doc1 with
       | None => days_of_week doc2 = None
       | Some r1 =>
           exists r2,
             days_of_week doc2 = Some r2
             /\ row_style r2 = row_style r1
             /\ checkboxes r2 = checkboxes r1
             /\ option_list r2 = option_list r1
       end.
Proof.
  exists (initialized page), (initialized (initialized page)).
  split; [apply init_run|]. split; [apply init_run|].
  destruct page as [sel row hs w]. unfold initialized; cbn.
  split; [now rewrite <- app_assoc|].
  split; [destruct sel; reflexivity|].
  destruct row as [r|]; cbn; [|reflexivity].
  eexists. split; [reflexivity|].
  destruct sel as [s|]; cbn.
  - apply (lay_out_toggled_again (JSString (value s)) r).
  - destruct r as [st lb cbs [ul|]]; cbn; repeat split.
    now rewrite laid_out_idempotent.
Qed.

Lemma Forall2_map_right {A B : Type} (R : A -> B -> Prop) (f : A -> B)
      (l : list A) :
  (forall x, R x (f x)) -> Forall2 R l (map f l).
Proof. intros H. induction l; cbn; constructor; auto. Qed.

(** X7.  The layout step keeps the classes of every list item: after
    initialization the list holds the same items in the same order, an item
    that already carried [checkbox-row] is unchanged, and any other item has
    [checkbox-row] added after the classes it had. *)
Theorem layout_keeps_classes (page : Document) (r : Row) (ul : OptionList) :
  days_of_week page = Some r ->
  option_list r = Some ul ->
  exists doc r' ul',
    onDOMContentLoaded page = Normal (tt, doc)
    /\ days_of_week doc = Some r'
    /\ option_list r' = Some ul'
    /\ Forall2
         (fun li li' =>
            (In "checkbox-row" (classList li) -> li' = li)
            /\ (~ In "checkbox-row" (classList li) ->
                classList li' = (classList li ++ ["checkbox-row"])%list))
         (items ul) (items ul').
Proof.
  intros Hr Hul. rewrite init_run.
  eexists. eexists. exists (laid_out ul). split; [reflexivity|].
  split; [unfold initialized; cbn; rewrite Hr; reflexivity|]. split.
  - destruct (recurrence_type page) as [s|]; cbn.
    + destruct (toggled_frame (JSString (value s)) r) as [Fol _].
      now rewrite Fol, Hul.
    + now rewrite Hul.
  - cbn. apply Forall2_map_right. intros li. apply classList_add_spec.
Qed.

Lemma layout_keeps_classes_witness :
  exists doc r' ul',
    onDOMContentLoaded plain_page = Normal (tt, doc)
    /\ days_of_week doc = Some r'
    /\ option_list r' = Some ul'
    /\ Forall2
         (fun li li' =>
            (In "checkbox-row" (classList li) -> li' = li)
            /\ (~ In "checkbox-row" (classList li) ->
                classList li' = (classList li ++ ["checkbox-row"])%list))
         (items sample_list) (items ul').
Proof.
  apply (layout_keeps_classes plain_page (sample_row "Days" true true)
           sample_list);
    reflexivity.
Defined.

(** *** The change listener registered more than once *)

Lemma toggled_idempotent (v : JSValue) (r : Row) :
  is_weekly v = true \/ script_marked (label r) ->
  toggled v (toggled v r) = toggled v r.
Proof.
  unfold toggled. destruct (is_weekly v) eqn:E; intros H.
  - apply shown_idempotent.
  - apply hidden_idempotent. destruct H as [H | H]; [discriminate | exact H].
Qed.

Lemma toggled_script_marked (v : JSValue) (r : Row) :
  is_weekly v = true \/ script_marked (label r) ->
  is_weekly v = true \/ script_marked (label (toggled v r)).
Proof.
  intros [H | H]; [now left|].
  unfold toggled. destruct (is_weekly v); [now left | right].
  cbn. destruct (label r) as [l|]; cbn; [|exact I].
  exists (innerHTML (unmark l)). split; [|now left].
  now apply unmark_script_marked.
Qed.

(** X8.  Running the change listener several times in a row, as a change
    event does when the listener has been registered more than once, has
    the effect of running it once, provided the select's value is [weekly]
    or the label holds at most the marker the script itself appends. *)
Theorem repeated_listener_once (n : nat) (doc : Document) (s : Select) (r : Row) :
  recurrence_type doc = Some s ->
  days_of_week doc = Some r ->
  value s = "weekly" \/ script_marked (label r) ->
  times (S n) (onChange (Some SelectNode)) doc
  = onChange (Some SelectNode) doc.
Proof.
  intros Hs Hr Hc.
  assert (Hc' : is_weekly (JSString (value s)) = true \/ script_marked (label r)).
  { destruct Hc as [E | H]; [left | now right].
    rewrite weekly_string, E. reflexivity. }
  clear Hc. revert doc r Hs Hr Hc'.
  induction n as [|n IH]; intros doc r Hs Hr Hc.
  - cbn [times]. rewrite (bind_normal _ _ _ _ _ (onChange_run doc s Hs)).
    now rewrite (onChange_run doc s Hs).
  - change (times (S (S n)) (onChange (Some SelectNode)))
      with (onChange (Some SelectNode) ;;
            times (S n) (onChange (Some SelectNode))).
    rewrite (bind_normal _ _ _ _ _ (onChange_run doc s Hs)).
    rewrite (onChange_run doc s Hs), Hr.
    set (r1 := toggled (JSString (value s)) r).
    rewrite (IH (with_row doc r1) r1 Hs eq_refl
               (toggled_script_marked _ r Hc)).
    rewrite (onChange_run (with_row doc r1) s Hs).
    cbn [days_of_week with_row]. unfold r1.
    now rewrite toggled_idempotent.
Qed.

Lemma repeated_listener_once_witness :
  times 3 (onChange (Some SelectNode)) plain_page
  = onChange (Some SelectNode) plain_page.
Proof.
  apply (repeated_listener_once 2 plain_page (mkSelect "daily" 0)
           (sample_row "Days" true true));
    [reflexivity | reflexivity |].
  right. exists "Days". split; [reflexivity | left; reflexivity].
Defined.

(** *** A label with an asterisk of the host's own *)


